(** * copyfighter: by-value uses of wide structs at function boundaries

    A shallow embedding of [main.go].  The analyzer type-checks a Go
    package with [go/types], collects the type names whose size under a
    [types.StdSizes] exceeds a threshold, scans every function signature for
    receiver, parameters and results whose type is one of those named types
    (and not a pointer to one), and prints one line per offending function,
    sorted by source position.

    What [main.go] takes from the Go standard library is a parameter of the
    development: the size function of [types.StdSizes], the type checker,
    the printing of types and functions, [sort.Sort], the file system. *)

From Stdlib Require Import ZArith List Sorted Permutation DecimalString Lia.
From stdpp Require Import gmap strings sorting.

Local Open Scope Z_scope.

(** ** The part of [go/token] and [go/types] the analyzer looks at *)

(** [token.Pos]: an offset into the file set. *)
Definition Pos := Z.

(** [token.Position]. *)
Record Position := mkPosition
  { Filename : string;
    Line : Z;
    Column : Z }.

(** [*token.FileSet], read only: [fset.Position(pos)], and the name of the
    file holding [pos], [fset.File(pos).Name()].  [printSites] asks
    [fset.File(pos).Position(pos)] for line and column, which [go/token]
    defines as the same [PositionFor(pos, true)] that [fset.Position(pos)]
    returns.  Every function comes out of the type checker run on this file
    set, so [fset.File] finds its file. *)
Record FileSet := mkFileSet
  { fset_Position : Pos -> Position;
    fset_File_Name : Pos -> string }.

(** [*types.TypeName]: the object (a pointer in Go, a number here) and what
    its [Id()] returns.  [Id()] is the bare name for an exported name and the
    package path, a dot and the name otherwise, so that two objects can have
    the same [Id()]. *)
Record TypeName := mkTypeName
  { tn_obj : nat;
    tn_Id : string }.

(** [types.Type].  A [*types.Named] points to its [*types.TypeName]
    ([named.Obj()]); the other cases are the unnamed types. *)
#[warnings="-register-all"] Inductive Ty : Type :=
| Basic (name : string)
| Pointer (elem : Ty)
| Slice (elem : Ty)
| Struct (fields : list Ty)
| Named (obj : TypeName).

(** [*types.Var]: a receiver, a parameter or a result. *)
Record Var := mkVar
  { v_Name : string;
    v_Type : Ty }.

(** [*types.Signature]: [Recv()], [Params()] and [Results()]. *)
Record Signature := mkSignature
  { Recv : option Var;
    Params : list Var;
    Results : list Var }.

(** [*types.Func]: [f.Type()] is always a [*types.Signature]. *)
Record Func := mkFunc
  { f_Name : string;
    f_Pos : Pos;
    f_Type : Signature }.

(** The values of [info.Defs]: a type name with its [tn.Type()], a function,
    or any other object (variables, constants, fields, labels, [nil]). *)
Inductive Object : Type :=
| ObjTypeName (tn : TypeName) (ty : Ty)
| ObjFunc (f : Func)
| ObjOther.

(** [types.StdSizes]. *)
Record StdSizes := mkStdSizes
  { WordSize : Z;
    MaxAlign : Z }.

(** [*ast.Package]: its name; the files are what the type checker reads. *)
Record Package := mkPackage
  { pkg_Name : string;
    pkg_Files : list string }.

(** [type copySite struct { fun *types.Func; shouldBe []string }]. *)
Record copySite := mkCopySite
  { fun_ : Func;
    shouldBe : list string }.

(** What [os.Stat] tells [check]: the path does not exist, it exists, or
    another error. *)
Inductive StatResult : Type :=
| StatNotExist
| StatOk
| StatError (err : string).

(** The flags of the command line; [None] is a flag that was not given. *)
Record Flags := mkFlags
  { flag_max : option Z;
    flag_wordSize : option Z;
    flag_maxAlign : option Z }.

(** What a run of [main] leaves behind: the lines written to standard
    output, those written by [log], and the exit code. *)
Record Outcome := mkOutcome
  { out_stdout : list string;
    out_log : list string;
    out_exit : Z }.

(** ** Formatting *)

(** The verb [%d] on a non-negative [int] and on a position's line or
    column. *)
Definition fmt_d_nat (i : nat) : string :=
  NilZero.string_of_uint (Nat.to_uint i).

Definition fmt_d (z : Z) : string :=
  NilZero.string_of_int (Z.to_int z).

(** [strings.Join(elems, sep)]. *)
Definition strings_Join (elems : list string) (sep : string) : string :=
  String.concat sep elems.

(** The newline that ends a line of output. *)
Definition nl : string := String (Ascii.ascii_of_nat 10) EmptyString.

(** ** [sentence] *)

Definition sentence (parts : list string) : string :=
  if (length parts =? 0)%nat then ""
  else if (length parts =? 1)%nat then nth 0 parts ""
  else
    let last := (length parts - 1)%nat in
    strings_Join (firstn last parts) ", " +:+ ", and " +:+ nth last parts "".

(** ** [isWideStructTyped] *)

(** Reading a [map[string]bool] at a key that is absent gives [false]. *)
Definition isWideStructTyped (t : Ty) (wideStructs : gmap string bool) : bool :=
  match t with
  | Named named => default false (wideStructs !! tn_Id named)
  | _ => false
  end.

(** ** The size model *)

Module SizeModel.

(** Modelled from the spec: [types.StdSizes.Sizeof] belongs to the Go
    standard library and is not part of [main.go].  A field of a composite
    is a primitive with its intrinsic size and alignment, a pointer, or a
    nested composite with its own ordered fields. *)
#[warnings="-register-all"] Inductive Field : Type :=
| FPrim (size align : Z)
| FPointer
| FNested (id : string) (fields : list Field).

(** Modelled from the spec: a named composite type, its identity and its
    fields in declaration order. *)
Record TypeDef := mkTypeDef
  { td_id : string;
    td_fields : list Field }.

(** Modelled from the spec: [offset] rounded up to a multiple of
    [align]. *)
Definition roundUp (offset align : Z) : Z :=
  ((offset + align - 1) / align) * align.

(** Modelled from the spec: one step of the running offset.  The state is
    the offset and the largest field alignment met so far; [sa] is the
    size and the alignment of the next field. *)
Definition place (st : Z * Z) (sa : Z * Z) : Z * Z :=
  (roundUp (fst st) (snd sa) + fst sa, Z.max (snd st) (snd sa)).

(** Modelled from the spec: the size and the alignment of a field.  A
    primitive has its intrinsic size and its intrinsic alignment capped at
    the maximum alignment; a pointer is one word, whatever it points to; a
    nested composite is laid out field by field, the offset rounded up to
    each field's alignment and the total rounded up to the largest field
    alignment, capped at the maximum alignment; a composite with no field
    has footprint 0. *)
Fixpoint measure (sizes : StdSizes) (f : Field) : Z * Z :=
  match f with
  | FPrim size align => (size, Z.min align (MaxAlign sizes))
  | FPointer => (WordSize sizes, Z.min (WordSize sizes) (MaxAlign sizes))
  | FNested _ [] => (0, Z.min 1 (MaxAlign sizes))
  | FNested _ fields =>
      let st := fold_left (fun st g => place st (measure sizes g)) fields (0, 1) in
      let align := Z.min (snd st) (MaxAlign sizes) in
      (roundUp (fst st) align, align)
  end.

(** Modelled from the spec: [footprint(typeDef, config)]. *)
Definition footprint (td : TypeDef) (sizes : StdSizes) : Z :=
  fst (measure sizes (FNested (td_id td) (td_fields td))).

End SizeModel.

(** ** Sorting *)

(** [sort.Sort] is given [Len], [Swap] and [Less] over the slice of sites: it
    can only exchange elements, and it compares them with [Less].  Its
    documentation promises ascending order as determined by [Less] and says
    that the sort is not guaranteed to be stable.  [ascending less l] is what
    [sort.IsSorted] tests: no element is less than the one before it. *)
Definition ascending {A : Type} (less : A -> A -> bool) (l : list A) : Prop :=
  Sorted (fun a b => less b a = false) l.

Definition sort_contract {A : Type} (less : A -> A -> bool)
    (sort : (A -> A -> bool) -> list A -> list A) : Prop :=
  forall l : list A, Permutation l (sort less l) /\ ascending less (sort less l).

(** The insertion sort of package [sort], which [sort.Sort] runs on short
    slices: the element at index [i] moves down while it is less than the
    element before it.  [below] is the sorted part in reverse, its last
    element first. *)
Fixpoint sinkDown {A : Type} (less : A -> A -> bool) (x : A) (below : list A) : list A :=
  match below with
  | [] => [x]
  | y :: rest => if less x y then y :: sinkDown less x rest else x :: below
  end.

Definition insertionSort {A : Type} (less : A -> A -> bool) (data : list A) : list A :=
  reverse (fold_left (fun below x => sinkDown less x below) data []).

(** A sort that moves an element down also past the elements equal to it:
    it sorts as well, and it reverses the elements that compare equal. *)
Fixpoint sinkPastTies {A : Type} (less : A -> A -> bool) (x : A) (below : list A) : list A :=
  match below with
  | [] => [x]
  | y :: rest => if less y x then x :: below else y :: sinkPastTies less x rest
  end.

Definition tieReversingSort {A : Type} (less : A -> A -> bool) (data : list A) : list A :=
  reverse (fold_left (fun below x => sinkPastTies less x below) data []).

(** [sortedCopySites.Swap]: [s.sites[i], s.sites[j] = s.sites[j], s.sites[i]].
    Out of range Go panics; the sort only asks for indices below [Len()]. *)
Definition Swap {A : Type} (sites : list A) (i j : nat) : list A :=
  match sites !! i, sites !! j with
  | Some x, Some y => <[j := x]> (<[i := y]> sites)
  | _, _ => sites
  end.

(** [sortedCopySites.Len]. *)
Definition Len {A : Type} (sites : list A) : nat := length sites.

(** What [sort.Sort] of Go 1.7 to 1.18 does with a slice of at most 12
    elements: one pass that compares each element from index 6 on with the
    element 6 places before it and exchanges the two when it is less, then
    the insertion sort. *)
Definition gapStep {A : Type} (less : A -> A -> bool) (data : list A) (i : nat) : list A :=
  match data !! i, data !! (i - 6)%nat with
  | Some x, Some y => if less x y then Swap data i (i - 6) else data
  | _, _ => data
  end.

Definition gapPass {A : Type} (less : A -> A -> bool) (data : list A) : list A :=
  fold_left (gapStep less) (seq 6 (length data - 6)) data.

Definition shortSliceSort {A : Type} (less : A -> A -> bool) (data : list A) : list A :=
  insertionSort less (gapPass less data).

(** ** Finding and parsing the packages *)

(** [os.FileInfo], as far as [parsePkgDir] reads it. *)
Record FileInfo := mkFileInfo
  { fi_IsDir : bool }.

(** What [buildContext.ImportDir] returns: a package, a [*build.NoGoError],
    or another error. *)
Inductive ImportResult : Type :=
| ImportOk
| ImportNoGo
| ImportError (err : string).

Module Discovery.
Section Discovery.

(** The verb [%#v] on a string. *)
Variable fmt_quote : string -> string.

(** [os.Stat] as [parsePkgDir] reads it: the error, or the file info. *)
Variable os_Stat_info : string -> string + FileInfo.

(** [parser.ParseDir(fset, p, nil, 0)]: the error, or the packages of the
    map it returns, in the order in which a [range] over the map meets
    them. *)
Variable parser_ParseDir : string -> string + list Package.

(** [filepath.Clean]. *)
Variable filepath_Clean : string -> string.

(** The directories that the walk over the source roots of the build context
    collects for a cleaned path: those whose path below the root matches
    [pathToRegexp(p)], skipping the trees of [.foo], [_foo] and [testdata],
    in the order of the walk. *)
Variable matchingDirs : string -> list string.

(** [buildContext.ImportDir(d, 0)]. *)
Variable build_ImportDir : string -> ImportResult.

(** The loop [for _, v := range mp { pkg = v }] leaves the last package met
    in [pkg]; it runs when [len(mp)] is 1. *)
Definition parsePkgDir (p : string) : string + Package :=
  match os_Stat_info p with
  | inl err => inl ("unable to stat file " +:+ fmt_quote p +:+ ": " +:+ err)
  | inr fi =>
      if negb (fi_IsDir fi)
      then inl (fmt_quote p +:+ " is not a directory")
      else
        match parser_ParseDir p with
        | inl err =>
            inl ("unable to parse package at " +:+ fmt_quote p +:+ ": " +:+ err)
        | inr mp =>
            if negb (length mp =? 1)%nat
            then
              let ps := map pkg_Name mp in
              inl ("more than one package found in " +:+ fmt_quote p +:+ ": "
                     +:+ strings_Join ps ",")
            else
              match mp with
              | v :: _ => inr (List.last mp v)
              | [] => inl ""
              end
        end
  end.

(** The loop of [parseGoPkg] over the directories found, with the packages
    parsed so far. *)
Fixpoint parseDirs (dirs : list string) (pkgs : list Package)
    : string + list Package :=
  match dirs with
  | [] => inr pkgs
  | d :: rest =>
      match build_ImportDir d with
      | ImportNoGo => parseDirs rest pkgs
      | ImportError err =>
          inl ("unable to build code in " +:+ fmt_quote d +:+ ": " +:+ err)
      | ImportOk =>
          match parsePkgDir d with
          | inl err => inl err
          | inr pkg => parseDirs rest (pkgs ++ [pkg])
          end
      end
  end.

Definition parseGoPkg (p : string) : string + list Package :=
  let p := filepath_Clean p in
  let dirs := matchingDirs p in
  match parseDirs dirs [] with
  | inl err => inl err
  | inr pkgs =>
      if (length pkgs =? 0)%nat
      then inl ("unable to find packages matching " +:+ fmt_quote p)
      else inr pkgs
  end.

End Discovery.
End Discovery.

(** ** A small resolved package

    Two types and a method, used to run the analyzer: [Big] has two 8-byte
    fields and [Bigger] three, and
    [func (b Bigger) M(x Big, y Bigger) Bigger]. *)

Module Sample.
Import SizeModel.

Definition Big : TypeName := mkTypeName 1 "Big".
Definition Bigger : TypeName := mkTypeName 2 "Bigger".


Definition typeDefs (obj : nat) : TypeDef :=
  match obj with
  | 1%nat => mkTypeDef "Big" [FPrim 8 8; FPrim 8 8]
  | 2%nat => mkTypeDef "Bigger" [FPrim 8 8; FPrim 8 8; FPrim 8 8]
  | 3%nat => mkTypeDef "Big" [FPrim 8 8; FPrim 8 8; FPrim 8 8; FPrim 8 8; FPrim 8 8]
  | _ => mkTypeDef "" []
  end.

(** The size of a named type is the footprint of its definition; every
    other type of the sample takes one word.  The sample is run under a
    positive maximum alignment only: at a maximum alignment of 0
    [types.StdSizes] divides by zero and panics. *)
Definition Sizeof (sizes : StdSizes) (t : Ty) : Z :=
  match t with
  | Named tn => footprint (typeDefs (tn_obj tn)) sizes
  | _ => WordSize sizes
  end.

Definition Type_String (t : Ty) : string :=
  match t with
  | Named tn => tn_Id tn
  | Pointer (Named tn) => "*" +:+ tn_Id tn
  | _ => "T"
  end.

Definition Func_String (f : Func) : string := "func " +:+ f_Name f.

Definition dquote : string := String (Ascii.ascii_of_nat 34) EmptyString.

Definition fmt_quote (s : string) : string := dquote +:+ s +:+ dquote.

(** Positions below 1000 lie in [fileA.go], the others in [fileB.go]; the
    line is the tens and the column the units. *)
Definition fset : FileSet :=
  let name := fun pos : Pos => if pos <? 1000 then "fileA.go" else "fileB.go" in
  mkFileSet
    (fun pos => mkPosition (name pos) ((pos mod 1000) / 10) (pos mod 10))
    name.

Definition M : Func :=
  mkFunc "M" 51
    (mkSignature (Some (mkVar "b" (Named Bigger)))
       [mkVar "x" (Named Big); mkVar "y" (Named Bigger)]
       [mkVar "" (Named Bigger)]).

(** [func (b *Bigger) P(y *Bigger) *Bigger]. *)
Definition P : Func :=
  mkFunc "P" 71
    (mkSignature (Some (mkVar "b" (Pointer (Named Bigger))))
       [mkVar "y" (Pointer (Named Bigger))]
       [mkVar "" (Pointer (Named Bigger))]).

(** [func (b Bigger) Three(x, y Bigger)]. *)
Definition Three : Func :=
  mkFunc "Three" 91
    (mkSignature (Some (mkVar "b" (Named Bigger)))
       [mkVar "x" (Named Bigger); mkVar "y" (Named Bigger)]
       []).

(** [func A(s struct{ a, b, c, d int64 }, n int, xs []Bigger)]. *)
Definition A : Func :=
  mkFunc "A" 111
    (mkSignature None
       [mkVar "s" (Struct [Basic "int64"; Basic "int64"; Basic "int64"; Basic "int64"]);
        mkVar "n" (Basic "int");
        mkVar "xs" (Slice (Named Bigger))]
       []).

Definition defs : list Object :=
  [ObjTypeName Big (Named Big); ObjFunc M; ObjOther;
   ObjTypeName Bigger (Named Bigger); ObjFunc P].

Definition wide : gmap string bool := {[ "Bigger" := true ]}.

(** The directory [pkg] holds this package; [broken] holds one that does
    not type check; nothing else exists. *)
Definition os_Stat (p : string) : StatResult :=
  if String.eqb p "pkg" then StatOk
  else if String.eqb p "broken" then StatOk
  else StatNotExist.

Definition parsePkgDir (p : string) : string + Package :=
  inr (mkPackage p [p +:+ "/a.go"]).

Definition parseGoPkg (p : string) : string + list Package :=
  if String.eqb p "both" then inr [mkPackage "pkg" ["pkg/a.go"]; mkPackage "broken" ["broken/a.go"]]
  else inl ("unable to find packages matching " +:+ fmt_quote p).

Definition conf_Check (sizes : StdSizes) (pkg : Package) : string + list Object :=
  if String.eqb (pkg_Name pkg) "broken"
  then inl "broken/a.go:3:9: undeclared name: y"
  else inr defs.

(** Three sites at (fileB,10,1), (fileA,5,1) and (fileA,5,1). *)
Definition siteB : copySite := mkCopySite (mkFunc "B" 1101 (mkSignature None [] [])) ["receiver"].
Definition siteA1 : copySite := mkCopySite (mkFunc "A1" 51 (mkSignature None [] [])) ["receiver"].
Definition siteA2 : copySite := mkCopySite (mkFunc "A2" 51 (mkSignature None [] [])) ["parameter at index 0"].

(** Seven sites: the two of (fileA,5,1), four of fileB, and one at
    (fileA,1,1). *)
Definition siteB2 : copySite := mkCopySite (mkFunc "B2" 1111 (mkSignature None [] [])) ["receiver"].
Definition siteB3 : copySite := mkCopySite (mkFunc "B3" 1121 (mkSignature None [] [])) ["receiver"].
Definition siteB4 : copySite := mkCopySite (mkFunc "B4" 1131 (mkSignature None [] [])) ["receiver"].
Definition siteA0 : copySite := mkCopySite (mkFunc "A0" 11 (mkSignature None [] [])) ["receiver"].

Definition sevenSites : list copySite :=
  [siteA1; siteA2; siteB; siteB2; siteB3; siteB4; siteA0].

(** A file system: [pkg] and [other] are directories with one package
    each, [mixed] a directory with two, [empty] a directory without Go
    files, [main.go] a file; nothing else exists. *)
Definition os_Stat_info (p : string) : string + FileInfo :=
  if String.eqb p "main.go" then inr (mkFileInfo false)
  else if String.eqb p "pkg" then inr (mkFileInfo true)
  else if String.eqb p "other" then inr (mkFileInfo true)
  else if String.eqb p "mixed" then inr (mkFileInfo true)
  else if String.eqb p "empty" then inr (mkFileInfo true)
  else inl ("stat " +:+ p +:+ ": no such file or directory").

Definition parser_ParseDir (p : string) : string + list Package :=
  if String.eqb p "pkg" then inr [mkPackage "pkg" ["pkg/a.go"]]
  else if String.eqb p "other" then inr [mkPackage "other" ["other/b.go"]]
  else if String.eqb p "mixed"
  then inr [mkPackage "one" ["mixed/one.go"]; mkPackage "two" ["mixed/two.go"]]
  else inr [].

(** [os.Stat] as [check] reads it, on this file system. *)
Definition os_Stat_files (p : string) : StatResult :=
  match os_Stat_info p with
  | inr _ => StatOk
  | inl _ => StatNotExist
  end.

Definition filepath_Clean (p : string) : string := p.

(** The import path [all/...] matches the directories [pkg], [empty] and
    [other]; [none/...] matches [empty] only; [bad/...] matches [pkg],
    [cgo] and [other]. *)
Definition matchingDirs (p : string) : list string :=
  if String.eqb p "all/..." then ["pkg"; "empty"; "other"]
  else if String.eqb p "none/..." then ["empty"]
  else if String.eqb p "bad/..." then ["pkg"; "cgo"; "other"]
  else [].

(** [empty] has no Go file and [cgo] cannot be built. *)
Definition build_ImportDir (d : string) : ImportResult :=
  if String.eqb d "empty" then ImportNoGo
  else if String.eqb d "cgo" then ImportError "build constraints exclude all Go files"
  else ImportOk.

End Sample.

(** ** The analyzer *)

Section Analyzer.

(** [sizes.Sizeof(t)] of [types.StdSizes]: an [int64], read as the integer
    it denotes; the analyzer only compares it with the threshold. *)
Variable Sizeof : StdSizes -> Ty -> Z.

(** The verb [%s] on a [types.Type] and on a [*types.Func], and the verb
    [%#v] on a string. *)
Variable Type_String : Ty -> string.
Variable Func_String : Func -> string.
Variable fmt_quote : string -> string.

(** [sort.Sort] on the sites, with the [Less] it is given. *)
Variable sort_Sort : (copySite -> copySite -> bool) -> list copySite -> list copySite.

(** [conf.Check("", fset, files, info)] under the given sizes: the error,
    or the values of [info.Defs] in the order in which the [range] over the
    map meets them (any order). *)
Variable conf_Check : StdSizes -> Package -> string + list Object.

(** The file system and the parser: [os.Stat], and what [parseGoPkg] and
    [parsePkgDir] return for a path, an error or the packages. *)
Variable os_Stat : string -> StatResult.
Variable parseGoPkg : string -> string + list Package.
Variable parsePkgDir : string -> string + Package.

(** The file set that [check] allocates and the parser fills. *)
Variable fset : FileSet.

(** *** [findCopySites] *)

(** The loop over [s.Params()], from index [i] on. *)
Fixpoint paramsLoop (wideStructs : gmap string bool) (params : list Var)
    (i : nat) (shouldBe : list string) : list string :=
  match params with
  | [] => shouldBe
  | v :: rest =>
      paramsLoop wideStructs rest (S i)
        (if isWideStructTyped (v_Type v) wideStructs then
           let name := v_Name v in
           let parameter :=
             if String.eqb name "" then "parameter"
             else "parameter '" +:+ name +:+ "'" in
           shouldBe ++ [parameter +:+ " at index " +:+ fmt_d_nat i]
         else shouldBe)
  end.

(** The loop over [s.Results()], from index [i] on. *)
Fixpoint resultsLoop (wideStructs : gmap string bool) (results : list Var)
    (i : nat) (shouldBe : list string) : list string :=
  match results with
  | [] => shouldBe
  | v :: rest =>
      resultsLoop wideStructs rest (S i)
        (if isWideStructTyped (v_Type v) wideStructs then
           shouldBe ++ ["return value '" +:+ Type_String (v_Type v)
                          +:+ "' at index " +:+ fmt_d_nat i]
         else shouldBe)
  end.

(** The body of the loop over [funcs]. *)
Definition scanFunc (wideStructs : gmap string bool) (sites : list copySite)
    (f : Func) : list copySite :=
  let s := f_Type f in
  let shouldBe := [] in
  let shouldBe :=
    match Recv s with
    | Some recv =>
        if isWideStructTyped (v_Type recv) wideStructs
        then shouldBe ++ ["receiver"] else shouldBe
    | None => shouldBe
    end in
  let shouldBe := paramsLoop wideStructs (Params s) 0 shouldBe in
  let shouldBe := resultsLoop wideStructs (Results s) 0 shouldBe in
  if (0 <? length shouldBe)%nat
  then sites ++ [mkCopySite f shouldBe] else sites.

Definition findCopySites (funcs : list Func) (wideStructs : gmap string bool)
    : list copySite :=
  fold_left (scanFunc wideStructs) funcs [].

(** *** [checkPkg] *)

(** The body of the loop over [info.Defs]: the state is [wideStructs] and
    [funcs]. *)
Definition defsStep (sizes : StdSizes) (maxWidth : Z)
    (st : gmap string bool * list Func) (obj : Object)
    : gmap string bool * list Func :=
  let wideStructs := fst st in
  let funcs := snd st in
  let wideStructs :=
    match obj with
    | ObjTypeName tn ty =>
        if Sizeof sizes ty >? maxWidth
        then <[tn_Id tn := true]> wideStructs else wideStructs
    | _ => wideStructs
    end in
  let funcs :=
    match obj with
    | ObjFunc f => funcs ++ [f]
    | _ => funcs
    end in
  (wideStructs, funcs).

Definition defsLoop (sizes : StdSizes) (maxWidth : Z) (defs : list Object)
    : gmap string bool * list Func :=
  fold_left (defsStep sizes maxWidth) defs (∅, []).

(** A Go result [(sites, err)]: [nil] sites are the empty list and a [nil]
    error is [None]. *)
Definition checkPkg (pkg : Package) (maxWidth wordSize maxAlign : Z)
    : list copySite * option string :=
  let sizes := mkStdSizes wordSize maxAlign in
  match conf_Check sizes pkg with
  | inl err =>
      ([], Some ("unable to type check package " +:+ fmt_quote (pkg_Name pkg)
                   +:+ ": " +:+ err))
  | inr defs =>
      let st := defsLoop sizes maxWidth defs in
      let wideStructs := fst st in
      let funcs := snd st in
      let sites := findCopySites funcs wideStructs in
      (sites, None)
  end.

(** *** [check] *)

(** The loop over the packages of an import path. *)
Fixpoint checkPkgs (pkgs : list Package) (maxStructWidth wordSize maxAlign : Z)
    (sites : list copySite) : list copySite * option string :=
  match pkgs with
  | [] => (sites, None)
  | pkg :: rest =>
      match checkPkg pkg maxStructWidth wordSize maxAlign with
      | (_, Some err) => ([], Some err)
      | (s, None) => checkPkgs rest maxStructWidth wordSize maxAlign (sites ++ s)
      end
  end.

Definition check (p : string) (maxStructWidth wordSize maxAlign : Z)
    : list copySite * option string :=
  match os_Stat p with
  | StatNotExist =>
      match parseGoPkg p with
      | inl err => ([], Some err)
      | inr pkgs => checkPkgs pkgs maxStructWidth wordSize maxAlign []
      end
  | StatOk =>
      match parsePkgDir p with
      | inl err => ([], Some err)
      | inr pkg =>
          match checkPkg pkg maxStructWidth wordSize maxAlign with
          | (_, Some err) => ([], Some err)
          | (sites, None) => (sites, None)
          end
      end
  | StatError err => ([], Some err)
  end.

(** *** [sortedCopySites.Less] and [printSites] *)

Definition Less (fset : FileSet) (si sj : copySite) : bool :=
  let left := fset_Position fset (f_Pos (fun_ si)) in
  let right := fset_Position fset (f_Pos (fun_ sj)) in
  if negb (String.eqb (Filename left) (Filename right))
  then String.ltb (Filename left) (Filename right)
  else if negb (Line left =? Line right)
  then Line left <? Line right
  else Column left <? Column right.

(** The line that [fmt.Fprintf] writes for one site. *)
Definition printSite (fset : FileSet) (site : copySite) : string :=
  let f := fun_ site in
  let shouldBe := shouldBe site in
  let sb := sentence shouldBe in
  let msg := "should be made into" in
  let msg :=
    if (1 <? length shouldBe)%nat
    then msg +:+ " pointers" else msg +:+ " a pointer" in
  let pos := f_Pos (fun_ site) in
  let position := fset_Position fset pos in
  fset_File_Name fset pos +:+ ":" +:+ fmt_d (Line position) +:+ ":"
    +:+ fmt_d (Column position) +:+ ": " +:+ sb +:+ " " +:+ msg
    +:+ " (" +:+ Func_String f +:+ ")" +:+ nl.

(** What [printSites] writes to [w], one string for each [Fprintf]. *)
Definition printSites (sites : list copySite) (fset : FileSet) : list string :=
  map (printSite fset) (sort_Sort (Less fset) sites).

(** *** The flags and [main] *)

Definition maxStructWidth (fl : Flags) : Z := default 16 (flag_max fl).
Definition wordSize (fl : Flags) : Z := default 8 (flag_wordSize fl).
Definition maxAlign (fl : Flags) : Z := default 8 (flag_maxAlign fl).

(** [log.Fatal] and [log.Fatalf]: the message, then [os.Exit(1)]. *)
Definition log_Fatal (msg : string) : Outcome :=
  mkOutcome [] [msg +:+ nl] 1.

(** [main] from the point where [flag.Parse()] has returned: [fl] holds the
    flags as parsed, [argv0] is [os.Args[0]] and [args] are the arguments
    left after the flags.  A flag that does not parse ends the run inside
    [flag.Parse()], before anything below. *)
Definition main (argv0 : string) (fl : Flags) (args : list string) : Outcome :=
  if negb (length args =? 1)%nat
  then log_Fatal ("usage: " +:+ argv0 +:+ " GO_PKG_DIR")
  else
    let p := nth 0 args "" in
    match check p (maxStructWidth fl) (wordSize fl) (maxAlign fl) with
    | (_, Some err) => log_Fatal err
    | (sites, None) =>
        let out := printSites sites fset in
        if (0 <? length sites)%nat
        then mkOutcome out [] 2
        else mkOutcome out [] 0
    end.


(** *** The scanner in the words of its contract *)

(** The positions of a signature: the receiver if there is one, the
    parameters, the results. *)
Definition positions (s : Signature) : list Var :=
  option_list (Recv s) ++ Params s ++ Results s.

Definition isPointer (t : Ty) : bool :=
  match t with
  | Pointer _ => true
  | _ => false
  end.

Definition isNamed (t : Ty) : bool :=
  match t with
  | Named _ => true
  | _ => false
  end.

(** The variables of a tuple with their indices, and those among them whose
    type is wide. *)
Definition indexedFrom (i : nat) (vs : list Var) : list (nat * Var) :=
  combine (seq i (length vs)) vs.

Definition offending (wideStructs : gmap string bool) (vs : list Var)
    : list (nat * Var) :=
  List.filter (fun iv => isWideStructTyped (v_Type (snd iv)) wideStructs)
    (indexedFrom 0 vs).

Definition paramDescription (iv : nat * Var) : string :=
  (if String.eqb (v_Name (snd iv)) "" then "parameter"
   else "parameter '" +:+ v_Name (snd iv) +:+ "'")
    +:+ " at index " +:+ fmt_d_nat (fst iv).

Definition resultDescription (iv : nat * Var) : string :=
  "return value '" +:+ Type_String (v_Type (snd iv)) +:+ "' at index "
    +:+ fmt_d_nat (fst iv).

Definition receiverDescription (wideStructs : gmap string bool) (s : Signature)
    : list string :=
  match Recv s with
  | Some recv =>
      if isWideStructTyped (v_Type recv) wideStructs then ["receiver"] else []
  | None => []
  end.

(** The offending positions of a signature, described: receiver, then
    parameters, then results. *)
Definition descriptions (wideStructs : gmap string bool) (s : Signature)
    : list string :=
  receiverDescription wideStructs s
    ++ map paramDescription (offending wideStructs (Params s))
    ++ map resultDescription (offending wideStructs (Results s)).

(** The sort key of a site, and the order on keys: file names compared as
    strings, character by character, then lines and columns as numbers. *)
Definition siteKey (fset : FileSet) (site : copySite) : Position :=
  fset_Position fset (f_Pos (fun_ site)).

Definition keyCompare (p q : Position) : comparison :=
  match String.compare (Filename p) (Filename q) with
  | Eq =>
      match Line p ?= Line q with
      | Eq => Column p ?= Column q
      | c => c
      end
  | c => c
  end.

(** "a pointer" or "pointers", by the number of offending positions. *)
Definition pointerNoun (n : nat) : string :=
  if (1 <? n)%nat then "pointers" else "a pointer".

(** The functions among the objects, in their order. *)
Definition funcsOf (defs : list Object) : list Func :=
  flat_map (fun obj =>
              match obj with
              | ObjFunc f => [f]
              | _ => []
              end) defs.

(** The sites that the objects of a package give: what [checkPkg] returns
    after the type check. *)
Definition sitesOf (sizes : StdSizes) (maxWidth : Z) (defs : list Object)
    : list copySite :=
  findCopySites (snd (defsLoop sizes maxWidth defs))
    (fst (defsLoop sizes maxWidth defs)).

(** ** Facts about the pieces *)

Lemma append_assoc (a b c : string) : (a +:+ b) +:+ c = a +:+ b +:+ c.
Proof.
  induction a as [|ch a IH]; [reflexivity|].
  change (String ch ((a +:+ b) +:+ c) = String ch (a +:+ b +:+ c)).
  now rewrite IH.
Qed.

Lemma isWideStructTyped_unnamed (t : Ty) (wideStructs : gmap string bool) :
  isNamed t = false -> isWideStructTyped t wideStructs = false.
Proof. destruct t; simpl; intros H; [reflexivity .. | discriminate H]. Qed.

Lemma paramsLoop_descriptions (wideStructs : gmap string bool) (params : list Var) :
  forall (i : nat) (acc : list string),
    paramsLoop wideStructs params i acc
    = acc ++ map paramDescription
               (List.filter (fun iv => isWideStructTyped (v_Type (snd iv)) wideStructs)
                  (indexedFrom i params)).
Proof.
  induction params as [|v rest IH]; intros i acc; simpl.
  - now rewrite app_nil_r.
  - rewrite IH. unfold indexedFrom. simpl.
    destruct (isWideStructTyped (v_Type v) wideStructs); simpl.
    + now rewrite <- List.app_assoc.
    + reflexivity.
Qed.

Lemma resultsLoop_descriptions (wideStructs : gmap string bool) (results : list Var) :
  forall (i : nat) (acc : list string),
    resultsLoop wideStructs results i acc
    = acc ++ map resultDescription
               (List.filter (fun iv => isWideStructTyped (v_Type (snd iv)) wideStructs)
                  (indexedFrom i results)).
Proof.
  induction results as [|v rest IH]; intros i acc; simpl.
  - now rewrite app_nil_r.
  - rewrite IH. unfold indexedFrom. simpl.
    destruct (isWideStructTyped (v_Type v) wideStructs); simpl.
    + now rewrite <- List.app_assoc.
    + reflexivity.
Qed.

(** One turn of the loop of [findCopySites] appends the site of the
    function, if it has offending positions. *)
Lemma scanFunc_descriptions (wideStructs : gmap string bool)
    (sites : list copySite) (f : Func) :
  scanFunc wideStructs sites f
  = sites ++ match descriptions wideStructs (f_Type f) with
             | [] => []
             | ds => [mkCopySite f ds]
             end.
Proof.
  unfold scanFunc.
  rewrite resultsLoop_descriptions, paramsLoop_descriptions.
  assert (Hrecv : match Recv (f_Type f) with
                  | Some recv =>
                      if isWideStructTyped (v_Type recv) wideStructs
                      then [] ++ ["receiver"] else []
                  | None => []
                  end = receiverDescription wideStructs (f_Type f)).
  { unfold receiverDescription. destruct (Recv (f_Type f)) as [recv|]; [|reflexivity].
    now destruct (isWideStructTyped (v_Type recv) wideStructs). }
  rewrite Hrecv, <- List.app_assoc.
  fold (offending wideStructs (Params (f_Type f))).
  fold (offending wideStructs (Results (f_Type f))).
  fold (descriptions wideStructs (f_Type f)).
  destruct (descriptions wideStructs (f_Type f)) as [|d ds]; simpl.
  - now rewrite app_nil_r.
  - reflexivity.
Qed.

Lemma findCopySites_from (wideStructs : gmap string bool) (funcs : list Func) :
  forall sites : list copySite,
    fold_left (scanFunc wideStructs) funcs sites
    = sites ++ flat_map (fun f => match descriptions wideStructs (f_Type f) with
                                  | [] => []
                                  | ds => [mkCopySite f ds]
                                  end) funcs.
Proof.
  induction funcs as [|f rest IH]; intros sites; simpl.
  - now rewrite app_nil_r.
  - rewrite IH, scanFunc_descriptions. now rewrite <- List.app_assoc.
Qed.

Lemma offending_none (wideStructs : gmap string bool) (vs : list Var) :
  (forall v, In v vs -> isWideStructTyped (v_Type v) wideStructs = false) ->
  offending wideStructs vs = [].
Proof.
  intros H. unfold offending, indexedFrom. generalize 0%nat.
  induction vs as [|v rest IH]; intros i; simpl; [reflexivity|].
  rewrite (H v (or_introl eq_refl)). apply IH.
  intros w Hw. apply H. now right.
Qed.

(** A signature none of whose positions has a wide named type has no
    offending position. *)
Lemma descriptions_none (wideStructs : gmap string bool) (s : Signature) :
  (forall v, In v (positions s) -> isWideStructTyped (v_Type v) wideStructs = false) ->
  descriptions wideStructs s = [].
Proof.
  intros H. unfold descriptions, receiverDescription.
  rewrite !offending_none.
  - destruct (Recv s) as [recv|] eqn:E; [|reflexivity].
    rewrite (H recv); [reflexivity|].
    unfold positions. rewrite E. simpl. now left.
  - intros v Hv. apply H. unfold positions. rewrite !in_app_iff. auto.
  - intros v Hv. apply H. unfold positions. rewrite !in_app_iff. auto.
Qed.

Lemma findCopySites_none (wideStructs : gmap string bool) (funcs : list Func) :
  (forall f v, In f funcs -> In v (positions (f_Type f)) ->
               isWideStructTyped (v_Type v) wideStructs = false) ->
  findCopySites funcs wideStructs = [].
Proof.
  intros H. unfold findCopySites. rewrite findCopySites_from. simpl.
  induction funcs as [|f rest IH]; simpl; [reflexivity|].
  rewrite descriptions_none.
  - apply IH. intros g v Hg. apply H. now right.
  - intros v. apply H. now left.
Qed.

(** *** The loop over [info.Defs] *)

Lemma defsStep_wide (sizes : StdSizes) (maxWidth : Z)
    (st : gmap string bool * list Func) (obj : Object) (id : string) :
  fst (defsStep sizes maxWidth st obj) !! id = Some true
  <-> fst st !! id = Some true
      \/ exists tn ty, obj = ObjTypeName tn ty /\ tn_Id tn = id
                       /\ Sizeof sizes ty > maxWidth.
Proof.
  unfold defsStep. destruct obj as [tn ty| f |]; simpl.
  - destruct (Sizeof sizes ty >? maxWidth) eqn:E.
    + apply Z.gtb_gt in E. rewrite lookup_insert.
      case_decide as Hid.
      * split; [|reflexivity]. intros _. right. now exists tn, ty.
      * split; [now left|].
        intros [H|(tn' & ty' & Heq & Hid' & _)]; [exact H|].
        injection Heq as <- <-. contradiction.
    + split; [now left|].
      intros [H|(tn' & ty' & Heq & _ & Hgt)]; [exact H|].
      injection Heq as <- <-.
      assert ((Sizeof sizes ty >? maxWidth) = true) by now apply Z.gtb_gt.
      congruence.
  - split; [now left|]. intros [H|(tn' & ty' & Heq & _)]; [exact H | discriminate Heq].
  - split; [now left|]. intros [H|(tn' & ty' & Heq & _)]; [exact H | discriminate Heq].
Qed.

Lemma defsLoop_wide_from (sizes : StdSizes) (maxWidth : Z) (defs : list Object)
    (id : string) :
  forall st : gmap string bool * list Func,
    fst (fold_left (defsStep sizes maxWidth) defs st) !! id = Some true
    <-> fst st !! id = Some true
        \/ exists tn ty, In (ObjTypeName tn ty) defs /\ tn_Id tn = id
                         /\ Sizeof sizes ty > maxWidth.
Proof.
  induction defs as [|obj rest IH]; intros st; simpl.
  - split; [now left|]. intros [H|(tn & ty & [] & _)]. exact H.
  - rewrite IH, defsStep_wide. split.
    + intros [[H|(tn & ty & Heq & Hid & Hgt)]|(tn & ty & Hin & Hid & Hgt)].
      * now left.
      * right. exists tn, ty. subst obj. auto.
      * right. exists tn, ty. auto.
    + intros [H|(tn & ty & [Heq|Hin] & Hid & Hgt)].
      * left. now left.
      * left. right. now exists tn, ty.
      * right. now exists tn, ty.
Qed.

(** The wide set holds exactly the identities of the type names whose size
    exceeds the threshold. *)
Lemma defsLoop_wide (sizes : StdSizes) (maxWidth : Z) (defs : list Object)
    (id : string) :
  fst (defsLoop sizes maxWidth defs) !! id = Some true
  <-> exists tn ty, In (ObjTypeName tn ty) defs /\ tn_Id tn = id
                    /\ Sizeof sizes ty > maxWidth.
Proof.
  unfold defsLoop. rewrite defsLoop_wide_from. simpl. rewrite lookup_empty.
  split; [intros [H|H]; [discriminate H | exact H] | now right].
Qed.

(** The map never holds [false]: a key is present only with [true]. *)
Lemma defsLoop_only_true (sizes : StdSizes) (maxWidth : Z) (defs : list Object)
    (id : string) :
  fst (defsLoop sizes maxWidth defs) !! id <> Some false.
Proof.
  unfold defsLoop.
  assert (H : forall st : gmap string bool * list Func,
             fst st !! id <> Some false ->
             fst (fold_left (defsStep sizes maxWidth) defs st) !! id <> Some false).
  { induction defs as [|obj rest IH]; intros st Hst; simpl; [exact Hst|].
    apply IH. unfold defsStep. destruct obj as [tn ty| f |]; simpl; try exact Hst.
    destruct (Sizeof sizes ty >? maxWidth); [|exact Hst].
    rewrite lookup_insert. case_decide; [discriminate | exact Hst]. }
  apply H. simpl. rewrite lookup_empty. discriminate.
Qed.

(** *** The order of [Less] *)

Lemma string_compare_refl (s : string) : String.compare s s = Eq.
Proof.
  pose proof (String.compare_antisym s s) as H.
  destruct (String.compare s s); simpl in H; congruence.
Qed.

Lemma string_compare_Lt_trans (a b c : string) :
  String.compare a b = Lt -> String.compare b c = Lt -> String.compare a c = Lt.
Proof.
  intros Hab Hbc.
  assert (Hle : String.le a c).
  { transitivity b; unfold String.le, String.leb; [rewrite Hab | rewrite Hbc]; exact I. }
  unfold String.le, String.leb in Hle.
  destruct (String.compare a c) eqn:Hac; [|reflexivity|destruct Hle].
  apply String.compare_eq_iff in Hac. subst c.
  rewrite String.compare_antisym, Hab in Hbc. discriminate Hbc.
Qed.

Lemma keyCompare_antisym (p q : Position) :
  keyCompare p q = CompOpp (keyCompare q p).
Proof.
  unfold keyCompare.
  rewrite (String.compare_antisym (Filename p) (Filename q)).
  rewrite (Z.compare_antisym (Line q) (Line p)).
  rewrite (Z.compare_antisym (Column q) (Column p)).
  destruct (String.compare (Filename q) (Filename p)); simpl; try reflexivity.
  destruct (Line q ?= Line p); simpl; reflexivity.
Qed.

Lemma keyCompare_trans (p q r : Position) :
  keyCompare p q <> Gt -> keyCompare q r <> Gt -> keyCompare p r <> Gt.
Proof.
  destruct p as [fp lp cp], q as [fq lq cq], r as [fr lr cr].
  unfold keyCompare. simpl.
  destruct (String.compare fp fq) eqn:E1; [| |congruence].
  - apply String.compare_eq_iff in E1. subst fq.
    destruct (String.compare fp fr) eqn:E2; [| congruence | congruence].
    destruct (Z.compare_spec lp lq), (Z.compare_spec lq lr), (Z.compare_spec lp lr);
      try congruence; try lia;
      destruct (Z.compare_spec cp cq), (Z.compare_spec cq cr), (Z.compare_spec cp cr);
      try congruence; try lia.
  - destruct (String.compare fq fr) eqn:E2; [| |congruence].
    + apply String.compare_eq_iff in E2. subst fr. rewrite E1. congruence.
    + rewrite (string_compare_Lt_trans _ _ _ E1 E2). congruence.
Qed.

(** [Less] is "strictly before" in the order on keys. *)
Lemma Less_keyCompare (fs : FileSet) (si sj : copySite) :
  Less fs si sj = true <-> keyCompare (siteKey fs si) (siteKey fs sj) = Lt.
Proof.
  unfold Less, keyCompare, siteKey.
  destruct (fset_Position fs (f_Pos (fun_ si))) as [fi li ci].
  destruct (fset_Position fs (f_Pos (fun_ sj))) as [fj lj cj]. simpl.
  destruct (String.eqb_spec fi fj) as [->|Hne]; simpl.
  - rewrite string_compare_refl.
    destruct (Z.eqb_spec li lj) as [->|Hl]; simpl.
    + rewrite Z.compare_refl. apply Z.ltb_lt.
    + rewrite Z.ltb_lt.
      destruct (Z.compare_spec li lj) as [E|E|E]; split; intros H;
        try reflexivity; try discriminate H; lia.
  - unfold String.ltb.
    destruct (String.compare fi fj) eqn:E; split; intros H;
      try reflexivity; try discriminate H.
    apply String.compare_eq_iff in E. contradiction.
Qed.

Lemma Less_false_keyCompare (fs : FileSet) (si sj : copySite) :
  Less fs sj si = false <-> keyCompare (siteKey fs si) (siteKey fs sj) <> Gt.
Proof.
  rewrite <- not_true_iff_false, Less_keyCompare, keyCompare_antisym.
  destruct (keyCompare (siteKey fs si) (siteKey fs sj)); simpl; split; congruence.
Qed.

Lemma Less_asym (fs : FileSet) (si sj : copySite) :
  Less fs si sj = true -> Less fs sj si = false.
Proof.
  rewrite Less_keyCompare, Less_false_keyCompare. congruence.
Qed.

(** What [sort.Sort] promises, in terms of the keys: no site comes before a
    site with a smaller key. *)
Lemma ascending_Less_sorted (fs : FileSet) (l : list copySite) :
  ascending (Less fs) l ->
  StronglySorted (fun a b => keyCompare (siteKey fs a) (siteKey fs b) <> Gt) l.
Proof.
  unfold ascending. intros H.
  apply Sorted.Sorted_StronglySorted.
  - intros a b c. apply keyCompare_trans.
  - eapply Sorted_ind with (P := Sorted _); [constructor | | exact H].
    intros a l' _ IH Hhd. constructor; [exact IH|].
    destruct Hhd as [|b l'' Hb]; constructor.
    now apply Less_false_keyCompare.
Qed.

(** *** The two insertion sorts keep the promise of [sort.Sort] *)

Lemma sinkDown_Permutation {A : Type} (less : A -> A -> bool) (x : A) (below : list A) :
  Permutation (x :: below) (sinkDown less x below).
Proof.
  induction below as [|y rest IH]; simpl; [reflexivity|].
  destruct (less x y); [|reflexivity].
  rewrite perm_swap. now constructor.
Qed.

Lemma sinkPastTies_Permutation {A : Type} (less : A -> A -> bool) (x : A)
    (below : list A) :
  Permutation (x :: below) (sinkPastTies less x below).
Proof.
  induction below as [|y rest IH]; simpl; [reflexivity|].
  destruct (less y x); [reflexivity|].
  rewrite perm_swap. now constructor.
Qed.

Lemma sinkDown_HdRel {A : Type} (less : A -> A -> bool) (x y : A) (below : list A) :
  less y x = false ->
  HdRel (fun a b => less a b = false) y below ->
  HdRel (fun a b => less a b = false) y (sinkDown less x below).
Proof.
  intros Hyx Hhd. destruct below as [|z rest]; simpl; [now constructor|].
  destruct (less x z); constructor; [now inversion Hhd | exact Hyx].
Qed.

Lemma sinkDown_Sorted {A : Type} (less : A -> A -> bool) (x : A) (below : list A) :
  (forall a b, less a b = true -> less b a = false) ->
  Sorted (fun a b => less a b = false) below ->
  Sorted (fun a b => less a b = false) (sinkDown less x below).
Proof.
  intros Hasym. induction 1 as [|y rest Hs IH Hhd]; simpl.
  - repeat constructor.
  - destruct (less x y) eqn:E.
    + constructor; [exact IH|]. apply sinkDown_HdRel; [now apply Hasym | exact Hhd].
    + constructor; [now constructor | now constructor].
Qed.

Lemma sinkPastTies_HdRel {A : Type} (less : A -> A -> bool) (x y : A) (below : list A) :
  less y x = false ->
  HdRel (fun a b => less a b = false) y below ->
  HdRel (fun a b => less a b = false) y (sinkPastTies less x below).
Proof.
  intros Hyx Hhd. destruct below as [|z rest]; simpl; [now constructor|].
  destruct (less z x); constructor; [exact Hyx | now inversion Hhd].
Qed.

Lemma sinkPastTies_Sorted {A : Type} (less : A -> A -> bool) (x : A) (below : list A) :
  (forall a b, less a b = true -> less b a = false) ->
  Sorted (fun a b => less a b = false) below ->
  Sorted (fun a b => less a b = false) (sinkPastTies less x below).
Proof.
  intros Hasym. induction 1 as [|y rest Hs IH Hhd]; simpl.
  - repeat constructor.
  - destruct (less y x) eqn:E.
    + constructor; [now constructor|]. constructor. now apply Hasym.
    + constructor; [exact IH|]. now apply sinkPastTies_HdRel.
Qed.

(** Any way of putting the elements one by one into a sorted list, kept in
    reverse, sorts. *)
Lemma insertion_contract {A : Type} (less : A -> A -> bool)
    (sink : A -> list A -> list A) :
  (forall x below, Permutation (x :: below) (sink x below)) ->
  (forall x below, Sorted (fun a b => less a b = false) below ->
                   Sorted (fun a b => less a b = false) (sink x below)) ->
  forall data : list A,
    Permutation data (reverse (fold_left (fun below x => sink x below) data []))
    /\ ascending less (reverse (fold_left (fun below x => sink x below) data [])).
Proof.
  intros Hperm Hsorted data.
  assert (H : forall below,
             Sorted (fun a b => less a b = false) below ->
             Permutation (data ++ below)
               (fold_left (fun below x => sink x below) data below)
             /\ Sorted (fun a b => less a b = false)
                  (fold_left (fun below x => sink x below) data below)).
  { induction data as [|x rest IH]; intros below Hs; simpl.
    - now split.
    - destruct (IH (sink x below) (Hsorted x below Hs)) as [Hp Hs'].
      split; [|exact Hs'].
      rewrite <- Hp. rewrite <- (Hperm x below).
      now rewrite Permutation_middle. }
  destruct (H [] (Sorted_nil _)) as [Hp Hs].
  rewrite app_nil_r in Hp. split.
  - rewrite reverse_Permutation. exact Hp.
  - unfold ascending. apply Sorted_reverse in Hs. exact Hs.
Qed.

Lemma insertionSort_contract {A : Type} (less : A -> A -> bool) :
  (forall a b, less a b = true -> less b a = false) ->
  sort_contract less insertionSort.
Proof.
  intros Hasym data. unfold insertionSort.
  apply (insertion_contract less (sinkDown less)).
  - apply sinkDown_Permutation.
  - intros x below. now apply sinkDown_Sorted.
Qed.

Lemma tieReversingSort_contract {A : Type} (less : A -> A -> bool) :
  (forall a b, less a b = true -> less b a = false) ->
  sort_contract less tieReversingSort.
Proof.
  intros Hasym data. unfold tieReversingSort.
  apply (insertion_contract less (sinkPastTies less)).
  - apply sinkPastTies_Permutation.
  - intros x below. now apply sinkPastTies_Sorted.
Qed.

Lemma Swap_Permutation {A : Type} (sites : list A) (i j : nat) :
  Permutation sites (Swap sites i j).
Proof.
  unfold Swap.
  destruct (sites !! i) as [x|] eqn:Hi; [|reflexivity].
  destruct (sites !! j) as [y|] eqn:Hj; [|reflexivity].
  symmetry. now apply Permutation_insert_swap.
Qed.

Lemma gapPass_Permutation {A : Type} (less : A -> A -> bool) (data : list A) :
  Permutation data (gapPass less data).
Proof.
  unfold gapPass. generalize (seq 6 (length data - 6)). intros indices.
  revert data. induction indices as [|i rest IH]; intros data; simpl; [reflexivity|].
  rewrite <- IH. unfold gapStep.
  destruct (data !! i) as [x|]; [|reflexivity].
  destruct (data !! (i - 6)%nat) as [y|]; [|reflexivity].
  destruct (less x y); [apply Swap_Permutation | reflexivity].
Qed.

Lemma shortSliceSort_contract {A : Type} (less : A -> A -> bool) :
  (forall a b, less a b = true -> less b a = false) ->
  sort_contract less shortSliceSort.
Proof.
  intros Hasym data. unfold shortSliceSort.
  destruct (insertionSort_contract less Hasym (gapPass less data)) as [Hp Hs].
  split; [|exact Hs].
  now rewrite <- Hp, <- gapPass_Permutation.
Qed.

(** What [sentence] makes of two or more parts. *)
Lemma sentence_snoc (init : list string) (last : string) :
  init <> [] ->
  sentence (init ++ [last]) = strings_Join init ", " +:+ ", and " +:+ last.
Proof.
  intros Hne. unfold sentence.
  assert (Hlen : length (init ++ [last]) = S (length init)).
  { rewrite length_app. simpl. lia. }
  rewrite Hlen.
  destruct init as [|a init]; [contradiction|]. simpl length.
  replace (S (S (length init)) - 1)%nat with (length (a :: init)) by (simpl; lia).
  change (S (S (length init)) =? 0)%nat with false.
  change (S (S (length init)) =? 1)%nat with (S (length init) =? 0)%nat.
  change (S (length init) =? 0)%nat with false. cbv iota.
  rewrite firstn_app, firstn_all, Nat.sub_diag, app_nil_r.
  now rewrite app_nth2, Nat.sub_diag by lia.
Qed.

(** ** The properties of the analyzer *)


(** C2, as the code has it: one description is rendered bare; two are
    rendered "A, and B", with the comma that the longer lists have; three
    are rendered "A, B, and C". *)
Theorem sentence_one_two_three :
  (forall a : string, sentence [a] = a)
  /\ (forall a b : string, sentence [a; b] = a +:+ ", and " +:+ b)
  /\ (forall a b c : string,
        sentence [a; b; c] = a +:+ ", " +:+ b +:+ ", and " +:+ c).
Proof.
  split; [reflexivity|]. split; [reflexivity|].
  intros a b c. unfold sentence, strings_Join. simpl.
  now rewrite append_assoc.
Qed.

(** C5: a pointer to a wide type is not flagged, and functions that take
    their receiver, parameters and results by pointer only yield no copy
    site. *)
Theorem pointers_yield_no_copy_site (funcs : list Func)
    (wideStructs : gmap string bool) :
  (forall f v, In f funcs -> In v (positions (f_Type f)) ->
               isPointer (v_Type v) = true) ->
  (forall t : Ty, isWideStructTyped (Pointer t) wideStructs = false)
  /\ findCopySites funcs wideStructs = [].
Proof.
  intros H. split; [reflexivity|].
  apply findCopySites_none. intros f v Hf Hv.
  specialize (H f v Hf Hv). destruct (v_Type v); try discriminate H. reflexivity.
Qed.

(** C6: the scanner emits, function by function and in the order of the
    functions, one site with all the descriptions of the function in the
    order receiver, parameters, results when there is at least one, and
    nothing when there is none; a method with a wide receiver and two wide
    parameters yields one site with three descriptions, the receiver
    first. *)
Theorem one_copy_site_per_signature (wideStructs : gmap string bool) :
  (forall funcs : list Func,
      findCopySites funcs wideStructs
      = flat_map (fun f => findCopySites [f] wideStructs) funcs)
  /\ (forall f : Func,
        findCopySites [f] wideStructs
        = match descriptions wideStructs (f_Type f) with
          | [] => []
          | ds => [mkCopySite f ds]
          end)
  /\ (forall f : Func, (length (findCopySites [f] wideStructs) <= 1)%nat)
  /\ findCopySites [Sample.Three] Sample.wide
     = [mkCopySite Sample.Three
          ["receiver"; "parameter 'x' at index 0"; "parameter 'y' at index 1"]].
Proof.
  assert (Hone : forall f : Func,
             findCopySites [f] wideStructs
             = match descriptions wideStructs (f_Type f) with
               | [] => []
               | ds => [mkCopySite f ds]
               end).
  { intros f. unfold findCopySites. rewrite findCopySites_from. simpl.
    now rewrite app_nil_r. }
  split; [|split; [exact Hone|split]].
  - intros funcs. unfold findCopySites at 1. rewrite findCopySites_from. simpl.
    apply flat_map_ext. intros f. now rewrite Hone.
  - intros f. rewrite Hone.
    destruct (descriptions wideStructs (f_Type f)); simpl; lia.
  - reflexivity.
Qed.

(** C9: the size model pads: two fields of sizes and alignments 1 and 8,
    under word size 8 and maximum alignment 8, take 16 bytes, not 9; a
    composite without fields takes 0 bytes under every configuration. *)
Theorem footprint_padding_and_empty :
  (forall id : string,
      SizeModel.footprint
        (SizeModel.mkTypeDef id [SizeModel.FPrim 1 1; SizeModel.FPrim 8 8])
        (mkStdSizes 8 8) = 16)
  /\ (forall id : string,
        SizeModel.footprint
          (SizeModel.mkTypeDef id [SizeModel.FPrim 1 1; SizeModel.FPrim 8 8])
          (mkStdSizes 8 8) <> 9)
  /\ (forall (id : string) (sizes : StdSizes),
        SizeModel.footprint (SizeModel.mkTypeDef id []) sizes = 0).
Proof.
  split; [reflexivity|]. split; [|reflexivity].
  intros id. vm_compute. discriminate.
Qed.

(** C10: the wideness test is false on every type that is not a named
    type, whatever the wide set, and functions whose receiver, parameters
    and results all have unnamed types yield no copy site. *)
Theorem only_named_types_are_flagged (t : Ty) (funcs : list Func)
    (wideStructs : gmap string bool) :
  isNamed t = false ->
  (forall f v, In f funcs -> In v (positions (f_Type f)) ->
               isNamed (v_Type v) = false) ->
  isWideStructTyped t wideStructs = false
  /\ findCopySites funcs wideStructs = [].
Proof.
  intros Ht H. split.
  - now apply isWideStructTyped_unnamed.
  - apply findCopySites_none. intros f v Hf Hv.
    apply isWideStructTyped_unnamed. now apply (H f v).
Qed.

(** A package that does not type check stops [check] on an import path,
    wherever it stands among the packages. *)
Lemma checkPkgs_error (pkg : Package) (maxWidth ws ma : Z) (err : string)
    (pkgs : list Package) :
  conf_Check (mkStdSizes ws ma) pkg = inl err ->
  In pkg pkgs ->
  forall sites : list copySite,
    exists msg : string, checkPkgs pkgs maxWidth ws ma sites = ([], Some msg).
Proof.
  intros Herr. induction pkgs as [|q rest IH]; intros Hin sites; [destruct Hin|].
  simpl. destruct (checkPkg q maxWidth ws ma) as [s [e|]] eqn:E.
  - now exists e.
  - destruct Hin as [->|Hin]; [|now apply IH].
    unfold checkPkg in E. rewrite Herr in E. discriminate E.
Qed.

Lemma checkPkgs_first_error (pkg : Package) (maxWidth ws ma : Z) (msg : string)
    (before after : list Package) :
  checkPkg pkg maxWidth ws ma = ([], Some msg) ->
  Forall (fun q => snd (checkPkg q maxWidth ws ma) = None) before ->
  forall sites : list copySite,
    checkPkgs (before ++ pkg :: after) maxWidth ws ma sites = ([], Some msg).
Proof.
  intros Hpkg. induction 1 as [|q rest Hq _ IH]; intros sites; simpl.
  - now rewrite Hpkg.
  - destruct (checkPkg q maxWidth ws ma) as [s [e|]]; [discriminate Hq | apply IH].
Qed.

(** A strongly sorted list that holds [b] after two sites with a smaller
    key has [b] last. *)
Lemma sorted_three (fs : FileSet) (a1 a2 b : copySite) (l : list copySite) :
  siteKey fs a1 = siteKey fs a2 ->
  keyCompare (siteKey fs a1) (siteKey fs b) = Lt ->
  Permutation [b; a1; a2] l ->
  StronglySorted (fun x y => keyCompare (siteKey fs x) (siteKey fs y) <> Gt) l ->
  l = [a1; a2; b] \/ l = [a2; a1; b].
Proof.
  intros Hkey Hlt Hperm Hsorted.
  destruct (Permutation_vs_cons_inv (Permutation_sym Hperm)) as (l1 & l2 & ->).
  apply Permutation_cons_app_inv in Hperm.
  assert (Hl2 : l2 = []).
  { destruct l2 as [|x l2]; [reflexivity|]. exfalso.
    assert (Hx : In x [a1; a2]).
    { apply (Permutation_in x (Permutation_sym Hperm)).
      apply in_or_app. right. now left. }
    assert (Hbx : keyCompare (siteKey fs b) (siteKey fs x) <> Gt).
    { apply StronglySorted_app_1_r, StronglySorted_inv in Hsorted.
      destruct Hsorted as [_ Hall]. exact (Forall_inv Hall). }
    assert (Hgt : keyCompare (siteKey fs b) (siteKey fs x) = Gt).
    { rewrite keyCompare_antisym.
      destruct Hx as [<-|[<-|[]]]; [|rewrite <- Hkey]; now rewrite Hlt. }
    contradiction. }
  subst l2. rewrite app_nil_r in Hperm.
  apply Permutation_length_2_inv in Hperm as [->| ->]; auto.
Qed.

(** C4, as the code has it: the lines are those of the sites in the order
    that [sort.Sort] leaves, a permutation of the scanned sites in which no
    site comes before one with a smaller key (file name as a string, then
    line, then column as numbers).  [sort.Sort] does not fix the order of
    sites with the same key: of sites at (fileB,10,1), (fileA,5,1) and
    (fileA,5,1) the two of fileA come first, in either order. *)
Theorem sites_reported_in_key_order (fs : FileSet) (sites : list copySite) :
  sort_contract (Less fs) sort_Sort ->
  printSites sites fs = map (printSite fs) (sort_Sort (Less fs) sites)
  /\ Permutation sites (sort_Sort (Less fs) sites)
  /\ StronglySorted
       (fun a b => keyCompare (siteKey fs a) (siteKey fs b) <> Gt)
       (sort_Sort (Less fs) sites)
  /\ (forall si sj : copySite,
        Less fs si sj = true <-> keyCompare (siteKey fs si) (siteKey fs sj) = Lt)
  /\ (forall a1 a2 b : copySite,
        siteKey fs a1 = siteKey fs a2 ->
        keyCompare (siteKey fs a1) (siteKey fs b) = Lt ->
        printSites [b; a1; a2] fs = map (printSite fs) [a1; a2; b]
        \/ printSites [b; a1; a2] fs = map (printSite fs) [a2; a1; b]).
Proof.
  intros Hsort.
  assert (Hall : forall l : list copySite,
             Permutation l (sort_Sort (Less fs) l)
             /\ StronglySorted
                  (fun a b => keyCompare (siteKey fs a) (siteKey fs b) <> Gt)
                  (sort_Sort (Less fs) l)).
  { intros l. destruct (Hsort l) as [Hp Ha]. split; [exact Hp|].
    now apply ascending_Less_sorted. }
  split; [reflexivity|]. split; [apply Hall|]. split; [apply Hall|].
  split; [apply Less_keyCompare|].
  intros a1 a2 b Hkey Hlt. unfold printSites.
  destruct (Hall [b; a1; a2]) as [Hp Hs].
  destruct (sorted_three fs a1 a2 b _ Hkey Hlt Hp Hs) as [-> | ->]; auto.
Qed.

(** C7: every site gets one line, of the form
    [<file>:<line>:<column>: <joined descriptions> should be made into
    <a pointer|pointers> (<function>)].  With one description the line
    carries it bare and says "a pointer"; with more than one it carries all
    but the last joined with ", ", then ", and " and the last, and says
    "pointers": the plural stands exactly when there is more than one
    description.  The method [M] of the sample, with three descriptions at
    fileA.go:5:1, gets the line spelled out at the end. *)
Theorem one_line_per_copy_site (fs : FileSet) (sites : list copySite) :
  sort_contract (Less fs) sort_Sort ->
  length (printSites sites fs) = length sites
  /\ Permutation (map (printSite fs) sites) (printSites sites fs)
  /\ (forall (f : Func) (d : string),
        printSite fs (mkCopySite f [d])
        = fset_File_Name fs (f_Pos f) +:+ ":"
            +:+ fmt_d (Line (fset_Position fs (f_Pos f))) +:+ ":"
            +:+ fmt_d (Column (fset_Position fs (f_Pos f))) +:+ ": "
            +:+ d +:+ " should be made into a pointer ("
            +:+ Func_String f +:+ ")" +:+ nl)
  /\ (forall (f : Func) (init : list string) (last : string),
        init <> [] ->
        printSite fs (mkCopySite f (init ++ [last]))
        = fset_File_Name fs (f_Pos f) +:+ ":"
            +:+ fmt_d (Line (fset_Position fs (f_Pos f))) +:+ ":"
            +:+ fmt_d (Column (fset_Position fs (f_Pos f))) +:+ ": "
            +:+ strings_Join init ", " +:+ ", and " +:+ last
            +:+ " should be made into pointers ("
            +:+ Func_String f +:+ ")" +:+ nl)
  /\ (forall site : copySite,
        (exists before after : string,
            printSite fs site
            = before +:+ " should be made into pointers (" +:+ after)
        /\ (1 < length (shouldBe site))%nat
        \/ (exists before after : string,
               printSite fs site
               = before +:+ " should be made into a pointer (" +:+ after)
           /\ (length (shouldBe site) <= 1)%nat)
  /\ printSite Sample.fset
       (mkCopySite Sample.M
          ["receiver"; "parameter 'y' at index 1"; "return value 'Bigger' at index 0"])
     = "fileA.go:5:1: receiver, parameter 'y' at index 1, and return value 'Bigger' at index 0 should be made into pointers ("
         +:+ Func_String Sample.M +:+ ")"
         +:+ String (Ascii.ascii_of_nat 10) EmptyString.
Proof.
  intros Hsort. destruct (Hsort sites) as [Hp _].
  assert (Hmany : forall (f : Func) (init : list string) (last : string),
             init <> [] ->
             printSite fs (mkCopySite f (init ++ [last]))
             = fset_File_Name fs (f_Pos f) +:+ ":"
                 +:+ fmt_d (Line (fset_Position fs (f_Pos f))) +:+ ":"
                 +:+ fmt_d (Column (fset_Position fs (f_Pos f))) +:+ ": "
                 +:+ strings_Join init ", " +:+ ", and " +:+ last
                 +:+ " should be made into pointers ("
                 +:+ Func_String f +:+ ")" +:+ nl).
  { intros f init last Hne. unfold printSite. simpl fun_. simpl shouldBe.
    rewrite (sentence_snoc init last Hne).
    assert (Hlen : (1 <? length (init ++ [last]))%nat = true).
    { apply Nat.ltb_lt. rewrite length_app. simpl.
      destruct init; [contradiction | simpl; lia]. }
    rewrite Hlen. rewrite !append_assoc. reflexivity. }
  split; [|split; [|split; [|split; [exact Hmany|split]]]].
  - unfold printSites. rewrite length_map. symmetry. now apply Permutation_length.
  - unfold printSites. now apply Permutation_map.
  - intros f d. reflexivity.
  - intros site. unfold printSite.
    destruct (Nat.ltb_spec 1 (length (shouldBe site))) as [Hlt|Hle].
    + left. split; [|exact Hlt].
      exists (fset_File_Name fs (f_Pos (fun_ site)) +:+ ":"
                +:+ fmt_d (Line (fset_Position fs (f_Pos (fun_ site)))) +:+ ":"
                +:+ fmt_d (Column (fset_Position fs (f_Pos (fun_ site)))) +:+ ": "
                +:+ sentence (shouldBe site)),
             (Func_String (fun_ site) +:+ ")" +:+ nl).
      rewrite !append_assoc. reflexivity.
    + right. split; [|exact Hle].
      exists (fset_File_Name fs (f_Pos (fun_ site)) +:+ ":"
                +:+ fmt_d (Line (fset_Position fs (f_Pos (fun_ site)))) +:+ ":"
                +:+ fmt_d (Column (fset_Position fs (f_Pos (fun_ site)))) +:+ ": "
                +:+ sentence (shouldBe site)),
             (Func_String (fun_ site) +:+ ")" +:+ nl).
      rewrite !append_assoc. reflexivity.
  - reflexivity.
Qed.

(** C8: when the type check of a package fails, [checkPkg] returns no site
    and one error that names the package and carries the checker's error;
    [check] returns that error and no site, for a directory and for an
    import path with other packages around; [main] then writes no
    diagnostic line, logs the error and exits with 1. *)
Theorem type_check_failure_aborts (pkg : Package) (fl : Flags) (err : string) :
  conf_Check (mkStdSizes (wordSize fl) (maxAlign fl)) pkg = inl err ->
  let msg := "unable to type check package " +:+ fmt_quote (pkg_Name pkg)
               +:+ ": " +:+ err in
  checkPkg pkg (maxStructWidth fl) (wordSize fl) (maxAlign fl) = ([], Some msg)
  /\ (forall (argv0 p : string),
        os_Stat p = StatOk -> parsePkgDir p = inr pkg ->
        check p (maxStructWidth fl) (wordSize fl) (maxAlign fl) = ([], Some msg)
        /\ main argv0 fl [p] = mkOutcome [] [msg +:+ nl] 1)
  /\ (forall (argv0 p : string) (pkgs : list Package),
        os_Stat p = StatNotExist -> parseGoPkg p = inr pkgs -> In pkg pkgs ->
        exists m : string,
          check p (maxStructWidth fl) (wordSize fl) (maxAlign fl) = ([], Some m)
          /\ main argv0 fl [p] = mkOutcome [] [m +:+ nl] 1)
  /\ (forall (p : string) (before after : list Package),
        os_Stat p = StatNotExist -> parseGoPkg p = inr (before ++ pkg :: after) ->
        Forall (fun q => snd (checkPkg q (maxStructWidth fl) (wordSize fl) (maxAlign fl))
                         = None) before ->
        check p (maxStructWidth fl) (wordSize fl) (maxAlign fl) = ([], Some msg)).
Proof.
  intros Herr msg.
  assert (Hpkg : checkPkg pkg (maxStructWidth fl) (wordSize fl) (maxAlign fl)
                 = ([], Some msg)).
  { unfold checkPkg. now rewrite Herr. }
  split; [exact Hpkg|]. split; [|split].
  - intros argv0 p Hstat Hparse.
    assert (Hcheck : check p (maxStructWidth fl) (wordSize fl) (maxAlign fl)
                     = ([], Some msg)).
    { unfold check. now rewrite Hstat, Hparse, Hpkg. }
    split; [exact Hcheck|]. unfold main. simpl. now rewrite Hcheck.
  - intros argv0 p pkgs Hstat Hparse Hin.
    destruct (checkPkgs_error pkg (maxStructWidth fl) _ _ err pkgs Herr Hin [])
      as [m Hm].
    exists m.
    assert (Hcheck : check p (maxStructWidth fl) (wordSize fl) (maxAlign fl)
                     = ([], Some m)).
    { unfold check. now rewrite Hstat, Hparse. }
    split; [exact Hcheck|]. unfold main. simpl. now rewrite Hcheck.
  - intros p before after Hstat Hparse Hbefore.
    unfold check. rewrite Hstat, Hparse.
    now apply checkPkgs_first_error.
Qed.

(** C3, as the code has it: the three configuration values are integers
    with defaults 16, 8 and 8, and a flag that is given is taken as it is.
    Nothing validates them.  Every threshold, positive or not, is used as it
    is given: with a positive word size and a positive maximum alignment,
    [check] on a package directory hands the values to [checkPkg], and
    there is an error exactly when the type check under those sizes
    fails. *)
Theorem configuration_defaults_without_validation (p : string) (pkg : Package)
    (maxWidth ws ma : Z) :
  os_Stat p = StatOk ->
  parsePkgDir p = inr pkg ->
  0 < ws ->
  0 < ma ->
  (maxStructWidth (mkFlags None None None) = 16
   /\ wordSize (mkFlags None None None) = 8
   /\ maxAlign (mkFlags None None None) = 8)
  /\ (maxStructWidth (mkFlags (Some maxWidth) (Some ws) (Some ma)) = maxWidth
      /\ wordSize (mkFlags (Some maxWidth) (Some ws) (Some ma)) = ws
      /\ maxAlign (mkFlags (Some maxWidth) (Some ws) (Some ma)) = ma)
  /\ check p maxWidth ws ma = checkPkg pkg maxWidth ws ma
  /\ (snd (check p maxWidth ws ma) = None
      <-> exists defs, conf_Check (mkStdSizes ws ma) pkg = inr defs)
  /\ (forall defs : list Object,
        conf_Check (mkStdSizes ws ma) pkg = inr defs ->
        check p maxWidth ws ma
        = (findCopySites (snd (defsLoop (mkStdSizes ws ma) maxWidth defs))
             (fst (defsLoop (mkStdSizes ws ma) maxWidth defs)), None)).
Proof.
  intros Hstat Hparse _ _.
  assert (Hcheck : check p maxWidth ws ma = checkPkg pkg maxWidth ws ma).
  { unfold check. rewrite Hstat, Hparse. unfold checkPkg.
    now destruct (conf_Check (mkStdSizes ws ma) pkg). }
  split; [now repeat split|]. split; [now repeat split|].
  split; [exact Hcheck|]. rewrite Hcheck. unfold checkPkg. split.
  - destruct (conf_Check (mkStdSizes ws ma) pkg) as [e|defs]; simpl; split.
    + discriminate.
    + intros [defs Hdefs]. discriminate Hdefs.
    + intros _. now exists defs.
    + reflexivity.
  - intros defs Hdefs. now rewrite Hdefs.
Qed.

(** ** Further properties of the analyzer *)

(** *** [sentence] *)

(** X1: a list of two or more descriptions is rendered as all but the last
    joined with ", ", then ", and ", then the last. *)
Theorem sentence_init_last (init : list string) (last : string) :
  init <> [] ->
  sentence (init ++ [last]) = strings_Join init ", " +:+ ", and " +:+ last.
Proof.
  intros Hne. unfold sentence.
  assert (Hlen : length (init ++ [last]) = S (length init)).
  { rewrite length_app. simpl. lia. }
  rewrite Hlen.
  destruct init as [|a init]; [contradiction|]. simpl length.
  replace (S (S (length init)) - 1)%nat with (length (a :: init)) by (simpl; lia).
  change (S (S (length init)) =? 0)%nat with false.
  change (S (S (length init)) =? 1)%nat with (S (length init) =? 0)%nat.
  change (S (length init) =? 0)%nat with false. cbv iota.
  rewrite firstn_app, firstn_all, Nat.sub_diag, app_nil_r.
  now rewrite app_nth2, Nat.sub_diag by lia.
Qed.

(** *** [findCopySites] *)

Lemma findCopySites_flat_map (funcs : list Func) (wideStructs : gmap string bool) :
  findCopySites funcs wideStructs
  = flat_map (fun f => match descriptions wideStructs (f_Type f) with
                       | [] => []
                       | ds => [mkCopySite f ds]
                       end) funcs.
Proof. unfold findCopySites. now rewrite findCopySites_from. Qed.

Lemma findCopySites_In (funcs : list Func) (wideStructs : gmap string bool)
    (site : copySite) :
  In site (findCopySites funcs wideStructs)
  <-> In (fun_ site) funcs
      /\ shouldBe site = descriptions wideStructs (f_Type (fun_ site))
      /\ shouldBe site <> [].
Proof.
  rewrite findCopySites_flat_map, in_flat_map. split.
  - intros (f & Hf & Hin).
    destruct (descriptions wideStructs (f_Type f)) as [|d ds] eqn:E; [destruct Hin|].
    destruct Hin as [<-|[]]. simpl. rewrite E. repeat split; [exact Hf | discriminate].
  - intros (Hf & Hds & Hne). exists (fun_ site). split; [exact Hf|].
    rewrite <- Hds. destruct site as [f ds]. simpl in *.
    destruct ds; [contradiction | now left].
Qed.

Lemma offending_length (wideStructs : gmap string bool) (vs : list Var) :
  (length (offending wideStructs vs) <= length vs)%nat.
Proof.
  unfold offending, indexedFrom.
  etransitivity; [apply filter_length_le|].
  rewrite length_combine, length_seq. lia.
Qed.

(** X2: every site that the scanner emits carries at least one description
    and at most one for the receiver and one for each parameter and result
    of its function. *)
Theorem site_descriptions_bounded (funcs : list Func)
    (wideStructs : gmap string bool) (site : copySite) :
  In site (findCopySites funcs wideStructs) ->
  (1 <= length (shouldBe site)
   <= 1 + length (Params (f_Type (fun_ site)))
      + length (Results (f_Type (fun_ site))))%nat.
Proof.
  intros Hin. apply findCopySites_In in Hin as (_ & Hds & Hne). split.
  - destruct (shouldBe site); [contradiction | simpl; lia].
  - rewrite Hds. unfold descriptions. rewrite !length_app, !length_map.
    pose proof (offending_length wideStructs (Params (f_Type (fun_ site)))).
    pose proof (offending_length wideStructs (Results (f_Type (fun_ site)))).
    assert (length (receiverDescription wideStructs (f_Type (fun_ site))) <= 1)%nat.
    { unfold receiverDescription.
      destruct (Recv (f_Type (fun_ site))) as [recv|]; [|simpl; lia].
      destruct (isWideStructTyped (v_Type recv) wideStructs); simpl; lia. }
    lia.
Qed.

Lemma indexedFrom_In (pre post : list Var) (v : Var) :
  forall i : nat, In ((i + length pre)%nat, v) (indexedFrom i (pre ++ v :: post)).
Proof.
  unfold indexedFrom. induction pre as [|u pre IH]; intros i; simpl.
  - left. f_equal. lia.
  - right. replace (i + S (length pre))%nat with (S i + length pre)%nat by lia.
    apply IH.
Qed.

Lemma offending_In (wideStructs : gmap string bool) (pre post : list Var) (v : Var) :
  isWideStructTyped (v_Type v) wideStructs = true ->
  In (length pre, v) (offending wideStructs (pre ++ v :: post)).
Proof.
  intros Hwide. unfold offending. apply filter_In. split; [|exact Hwide].
  apply (indexedFrom_In pre post v 0).
Qed.

(** X3: a parameter whose type is wide is described with its index among all
    the parameters of the function, by name when it has one: the function
    gets one site, and "parameter 'name' at index i" (or "parameter at index
    i") is among its descriptions. *)
Theorem wide_parameter_is_described (wideStructs : gmap string bool) (f : Func)
    (pre post : list Var) (v : Var) :
  Params (f_Type f) = pre ++ v :: post ->
  isWideStructTyped (v_Type v) wideStructs = true ->
  exists ds : list string,
    findCopySites [f] wideStructs = [mkCopySite f ds]
    /\ In ((if String.eqb (v_Name v) "" then "parameter"
            else "parameter '" +:+ v_Name v +:+ "'")
             +:+ " at index " +:+ fmt_d_nat (length pre)) ds.
Proof.
  intros Hparams Hwide.
  assert (Hin : In (paramDescription (length pre, v))
                  (descriptions wideStructs (f_Type f))).
  { unfold descriptions. rewrite Hparams. apply in_or_app. right.
    apply in_or_app. left. apply in_map. now apply offending_In. }
  exists (descriptions wideStructs (f_Type f)). split; [|exact Hin].
  rewrite findCopySites_flat_map. simpl. rewrite app_nil_r.
  destruct (descriptions wideStructs (f_Type f)); [destruct Hin | reflexivity].
Qed.

(** X4: a result whose type is wide is described with the printed type and
    the index among all the results of the function. *)
Theorem wide_result_is_described (wideStructs : gmap string bool) (f : Func)
    (pre post : list Var) (v : Var) :
  Results (f_Type f) = pre ++ v :: post ->
  isWideStructTyped (v_Type v) wideStructs = true ->
  exists ds : list string,
    findCopySites [f] wideStructs = [mkCopySite f ds]
    /\ In ("return value '" +:+ Type_String (v_Type v) +:+ "' at index "
             +:+ fmt_d_nat (length pre)) ds.
Proof.
  intros Hresults Hwide.
  assert (Hin : In (resultDescription (length pre, v))
                  (descriptions wideStructs (f_Type f))).
  { unfold descriptions. rewrite Hresults. apply in_or_app. right.
    apply in_or_app. right. apply in_map. now apply offending_In. }
  exists (descriptions wideStructs (f_Type f)). split; [|exact Hin].
  rewrite findCopySites_flat_map. simpl. rewrite app_nil_r.
  destruct (descriptions wideStructs (f_Type f)); [destruct Hin | reflexivity].
Qed.

(** *** [checkPkg] *)

Lemma defsLoop_funcs_from (sizes : StdSizes) (maxWidth : Z) (defs : list Object) :
  forall st : gmap string bool * list Func,
    snd (fold_left (defsStep sizes maxWidth) defs st) = snd st ++ funcsOf defs.
Proof.
  induction defs as [|obj rest IH]; intros st; simpl.
  - now rewrite app_nil_r.
  - rewrite IH. destruct obj as [tn ty| f |]; simpl.
    + reflexivity.
    + now rewrite <- List.app_assoc.
    + reflexivity.
Qed.

(** The loop collects the functions among the objects, in their order. *)
Lemma defsLoop_funcs (sizes : StdSizes) (maxWidth : Z) (defs : list Object) :
  snd (defsLoop sizes maxWidth defs) = funcsOf defs.
Proof. unfold defsLoop. now rewrite defsLoop_funcs_from. Qed.

Lemma funcsOf_In (defs : list Object) (f : Func) :
  In f (funcsOf defs) <-> In (ObjFunc f) defs.
Proof.
  unfold funcsOf. rewrite in_flat_map. split.
  - intros (obj & Hobj & Hin). destruct obj as [tn ty| g |].
    + destruct Hin.
    + destruct Hin as [<-|[]]. exact Hobj.
    + destruct Hin.
  - intros H. exists (ObjFunc f). split; [exact H | now left].
Qed.

Lemma checkPkg_ok (pkg : Package) (maxWidth ws ma : Z) (defs : list Object) :
  conf_Check (mkStdSizes ws ma) pkg = inr defs ->
  checkPkg pkg maxWidth ws ma = (sitesOf (mkStdSizes ws ma) maxWidth defs, None).
Proof. intros H. unfold checkPkg. now rewrite H. Qed.

(** X5: when a package type checks, the sites that [checkPkg] returns are
    exactly the functions defined in the package that have an offending
    position under the wide set of the package, each with the descriptions
    of its signature. *)
Theorem checkPkg_reports_offending_functions (pkg : Package)
    (maxWidth ws ma : Z) (defs : list Object) (site : copySite) :
  conf_Check (mkStdSizes ws ma) pkg = inr defs ->
  In site (fst (checkPkg pkg maxWidth ws ma))
  <-> In (ObjFunc (fun_ site)) defs
      /\ shouldBe site
         = descriptions (fst (defsLoop (mkStdSizes ws ma) maxWidth defs))
             (f_Type (fun_ site))
      /\ shouldBe site <> [].
Proof.
  intros Hdefs. rewrite (checkPkg_ok pkg maxWidth ws ma defs Hdefs). simpl.
  unfold sitesOf. rewrite findCopySites_In, defsLoop_funcs, funcsOf_In.
  reflexivity.
Qed.

Lemma defsLoop_lookup_cases (sizes : StdSizes) (maxWidth : Z) (defs : list Object)
    (id : string) :
  fst (defsLoop sizes maxWidth defs) !! id = Some true
  \/ fst (defsLoop sizes maxWidth defs) !! id = None.
Proof.
  destruct (fst (defsLoop sizes maxWidth defs) !! id) as [[|]|] eqn:E; auto.
  now apply defsLoop_only_true in E.
Qed.

(** Two runs of the loop flag the same identities when each flags what the
    other flags. *)
Lemma defsLoop_wide_ext (sizes sizes' : StdSizes) (maxWidth maxWidth' : Z)
    (defs defs' : list Object) :
  (forall id : string,
      fst (defsLoop sizes maxWidth defs) !! id = Some true
      <-> fst (defsLoop sizes' maxWidth' defs') !! id = Some true) ->
  fst (defsLoop sizes maxWidth defs) = fst (defsLoop sizes' maxWidth' defs').
Proof.
  intros H. apply map_eq. intros id.
  destruct (defsLoop_lookup_cases sizes maxWidth defs id) as [E|E],
           (defsLoop_lookup_cases sizes' maxWidth' defs' id) as [E'|E'];
    rewrite E, E'; try reflexivity.
  - apply H in E. congruence.
  - apply H in E'. congruence.
Qed.

(** X6: the order in which the [range] over [info.Defs] meets the objects
    does not matter for the wide set, and the sites of one order are a
    permutation of the sites of another. *)
Theorem defs_order_does_not_matter (sizes : StdSizes) (maxWidth : Z)
    (defs defs' : list Object) :
  Permutation defs defs' ->
  fst (defsLoop sizes maxWidth defs) = fst (defsLoop sizes maxWidth defs')
  /\ Permutation (sitesOf sizes maxWidth defs) (sitesOf sizes maxWidth defs').
Proof.
  intros Hperm.
  assert (Hwide : fst (defsLoop sizes maxWidth defs)
                  = fst (defsLoop sizes maxWidth defs')).
  { apply defsLoop_wide_ext. intros id. rewrite !defsLoop_wide.
    split; intros (tn & ty & Hin & Hrest); exists tn, ty; split; try exact Hrest.
    - now apply (Permutation_in _ Hperm).
    - now apply (Permutation_in _ (Permutation_sym Hperm)). }
  split; [exact Hwide|].
  unfold sitesOf. rewrite <- Hwide, !defsLoop_funcs, !findCopySites_flat_map.
  apply Permutation_flat_map. unfold funcsOf. now apply Permutation_flat_map.
Qed.

Lemma isWideStructTyped_empty (t : Ty) : isWideStructTyped t ∅ = false.
Proof. destruct t; reflexivity. Qed.

(** X7: when no type name of the package is larger than the threshold, the
    wide set is empty and no site is reported, whatever the functions. *)
Theorem nothing_wide_nothing_reported (sizes : StdSizes) (maxWidth : Z)
    (defs : list Object) :
  (forall tn ty, In (ObjTypeName tn ty) defs -> Sizeof sizes ty <= maxWidth) ->
  fst (defsLoop sizes maxWidth defs) = ∅
  /\ sitesOf sizes maxWidth defs = [].
Proof.
  intros Hsmall.
  assert (Hempty : fst (defsLoop sizes maxWidth defs) = ∅).
  { apply map_eq. intros id. rewrite lookup_empty.
    destruct (defsLoop_lookup_cases sizes maxWidth defs id) as [E|E]; [|exact E].
    apply defsLoop_wide in E as (tn & ty & Hin & _ & Hgt).
    specialize (Hsmall tn ty Hin). lia. }
  split; [exact Hempty|].
  unfold sitesOf. rewrite Hempty. apply findCopySites_none.
  intros f v _ _. apply isWideStructTyped_empty.
Qed.

(** X8: raising the threshold never flags a type that was not flagged
    before: what is wide under the larger threshold is wide under the
    smaller one. *)
Theorem wide_set_shrinks_with_threshold (sizes : StdSizes) (maxWidth maxWidth' : Z)
    (defs : list Object) (t : Ty) :
  maxWidth <= maxWidth' ->
  isWideStructTyped t (fst (defsLoop sizes maxWidth' defs)) = true ->
  isWideStructTyped t (fst (defsLoop sizes maxWidth defs)) = true.
Proof.
  intros Hle. destruct t as [| | | |tn]; simpl; try discriminate.
  destruct (defsLoop_lookup_cases sizes maxWidth' defs (tn_Id tn)) as [E|E];
    rewrite E; simpl; [intros _|discriminate].
  apply defsLoop_wide in E as (tn' & ty & Hin & Hid & Hgt).
  assert (E' : fst (defsLoop sizes maxWidth defs) !! tn_Id tn = Some true).
  { apply defsLoop_wide. exists tn', ty. repeat split; [exact Hin | exact Hid | lia]. }
  now rewrite E'.
Qed.

(** *** [sortedCopySites] *)

Lemma keyCompare_Eq (p q : Position) : keyCompare p q = Eq <-> p = q.
Proof.
  split.
  - destruct p as [fp lp cp], q as [fq lq cq]. unfold keyCompare. simpl.
    destruct (String.compare fp fq) eqn:E1; try discriminate.
    destruct (lp ?= lq) eqn:E2; try discriminate. intros E3.
    apply String.compare_eq_iff in E1. apply Z.compare_eq in E2, E3. congruence.
  - intros <-. unfold keyCompare.
    now rewrite string_compare_refl, !Z.compare_refl.
Qed.

(** X9: two sites are tied, neither less than the other, exactly when file
    name, line and column of their functions coincide. *)
Theorem Less_tie_iff_same_position (fs : FileSet) (si sj : copySite) :
  Less fs si sj = false /\ Less fs sj si = false
  <-> siteKey fs si = siteKey fs sj.
Proof.
  rewrite (Less_false_keyCompare fs sj si), (Less_false_keyCompare fs si sj).
  rewrite <- keyCompare_Eq, (keyCompare_antisym (siteKey fs sj) (siteKey fs si)).
  destruct (keyCompare (siteKey fs si) (siteKey fs sj)); simpl;
    (split; [intros [H1 H2]; congruence | intros H; split; congruence]).
Qed.

(** X10: [Less] is a strict order, as [sort.Sort] needs it: no site is less
    than itself, two sites are never less than each other, and less than is
    transitive. *)
Theorem Less_strict_order (fs : FileSet) :
  (forall s : copySite, Less fs s s = false)
  /\ (forall si sj : copySite, Less fs si sj = true -> Less fs sj si = false)
  /\ (forall si sj sk : copySite,
        Less fs si sj = true -> Less fs sj sk = true -> Less fs si sk = true).
Proof.
  split; [|split].
  - intros s. apply Less_false_keyCompare.
    now rewrite (proj2 (keyCompare_Eq (siteKey fs s) (siteKey fs s)) eq_refl).
  - apply Less_asym.
  - intros si sj sk. rewrite !Less_keyCompare. intros Hij Hjk.
    assert (Hik : keyCompare (siteKey fs si) (siteKey fs sk) <> Gt).
    { apply (keyCompare_trans _ (siteKey fs sj)); congruence. }
    destruct (keyCompare (siteKey fs si) (siteKey fs sk)) eqn:E;
      [|reflexivity|congruence].
    apply keyCompare_Eq in E. rewrite <- E in Hjk.
    rewrite keyCompare_antisym, Hij in Hjk. discriminate Hjk.
Qed.

(** X11: within its bounds [Swap] exchanges the elements at the two indices
    and leaves the length and every other element as they are. *)
Theorem Swap_exchanges (sites : list copySite) (i j : nat) :
  (i < Len sites)%nat -> (j < Len sites)%nat ->
  Swap sites i j !! i = sites !! j
  /\ Swap sites i j !! j = sites !! i
  /\ (forall k : nat, k <> i -> k <> j -> Swap sites i j !! k = sites !! k)
  /\ Len (Swap sites i j) = Len sites.
Proof.
  unfold Len, Swap. intros Hi Hj.
  destruct (lookup_lt_is_Some_2 sites i Hi) as [x Hx].
  destruct (lookup_lt_is_Some_2 sites j Hj) as [y Hy].
  rewrite Hx, Hy. repeat split.
  - destruct (decide (i = j)) as [->|Hne].
    + rewrite list_lookup_insert_eq by (rewrite length_insert; lia). congruence.
    + rewrite list_lookup_insert_ne by congruence.
      now rewrite list_lookup_insert_eq by lia.
  - now rewrite list_lookup_insert_eq by (rewrite length_insert; lia).
  - intros k Hki Hkj. now rewrite !list_lookup_insert_ne by congruence.
  - now rewrite !length_insert.
Qed.

(** X12: exchanging the same two elements twice gives the slice back. *)
Theorem Swap_twice (sites : list copySite) (i j : nat) :
  (i < Len sites)%nat -> (j < Len sites)%nat ->
  Swap (Swap sites i j) i j = sites.
Proof.
  unfold Len. intros Hi Hj.
  destruct (lookup_lt_is_Some_2 sites i Hi) as [x Hx].
  destruct (lookup_lt_is_Some_2 sites j Hj) as [y Hy].
  assert (Hswap : Swap sites i j = <[j := x]> (<[i := y]> sites)).
  { unfold Swap. now rewrite Hx, Hy. }
  assert (Hi' : Swap sites i j !! i = Some y).
  { rewrite Hswap. destruct (decide (i = j)) as [->|Hne].
    - rewrite list_lookup_insert_eq by (rewrite length_insert; lia). congruence.
    - rewrite list_lookup_insert_ne by congruence.
      now rewrite list_lookup_insert_eq by lia. }
  assert (Hj' : Swap sites i j !! j = Some x).
  { rewrite Hswap. now rewrite list_lookup_insert_eq by (rewrite length_insert; lia). }
  unfold Swap at 1. rewrite Hi', Hj', Hswap.
  apply list_eq. intros k.
  destruct (decide (k = j)) as [->|Hkj].
  - rewrite list_lookup_insert_eq by (rewrite !length_insert; lia). congruence.
  - rewrite list_lookup_insert_ne by congruence.
    destruct (decide (k = i)) as [->|Hki].
    + rewrite list_lookup_insert_eq by (rewrite !length_insert; lia). congruence.
    + now rewrite !list_lookup_insert_ne by congruence.
Qed.

(** *** [printSites] *)

(** Two lists in key order with the same sites, no two of which have the
    same position, are the same list. *)
Lemma key_order_unique (fs : FileSet) (l1 l2 : list copySite) :
  (forall x y, In x l1 -> In y l1 -> siteKey fs x = siteKey fs y -> x = y) ->
  StronglySorted (fun a b => keyCompare (siteKey fs a) (siteKey fs b) <> Gt) l1 ->
  StronglySorted (fun a b => keyCompare (siteKey fs a) (siteKey fs b) <> Gt) l2 ->
  Permutation l1 l2 ->
  l1 = l2.
Proof.
  intros Hinj Hs1 Hs2 Hperm.
  apply (StronglySorted_unique_strong
           (fun a b => keyCompare (siteKey fs a) (siteKey fs b) <> Gt));
    try assumption.
  intros x y Hx Hy Hxy Hyx. apply Hinj.
  - now apply list_elem_of_In.
  - apply list_elem_of_In in Hy. now apply (Permutation_in _ (Permutation_sym Hperm)).
  - apply keyCompare_Eq. rewrite keyCompare_antisym in Hyx.
    destruct (keyCompare (siteKey fs x) (siteKey fs y)); simpl in *; congruence.
Qed.

Lemma sort_Sort_key_order (fs : FileSet) (l : list copySite) :
  sort_contract (Less fs) sort_Sort ->
  Permutation l (sort_Sort (Less fs) l)
  /\ StronglySorted (fun a b => keyCompare (siteKey fs a) (siteKey fs b) <> Gt)
       (sort_Sort (Less fs) l).
Proof.
  intros Hsort. destruct (Hsort l) as [Hp Ha]. split; [exact Hp|].
  now apply ascending_Less_sorted.
Qed.

(** X13: when no two sites have the same position, the lines written do not
    depend on the order in which the sites were scanned. *)
Theorem printSites_ignores_scan_order (fs : FileSet) (sites sites' : list copySite) :
  sort_contract (Less fs) sort_Sort ->
  (forall x y, In x sites -> In y sites -> siteKey fs x = siteKey fs y -> x = y) ->
  Permutation sites sites' ->
  printSites sites fs = printSites sites' fs.
Proof.
  intros Hsort Hinj Hperm. unfold printSites. f_equal.
  destruct (sort_Sort_key_order fs sites Hsort) as [Hp Hs].
  destruct (sort_Sort_key_order fs sites' Hsort) as [Hp' Hs'].
  apply (key_order_unique fs); try assumption.
  - intros x y Hx Hy. apply Hinj; now apply (Permutation_in _ (Permutation_sym Hp)).
  - now rewrite <- Hp, <- Hp'.
Qed.

(** X14: the report of a package does not depend on the order in which the
    [range] over [info.Defs] meets the objects, when no two functions of the
    package have the same position. *)
Theorem report_ignores_defs_order (fs : FileSet) (sizes : StdSizes) (maxWidth : Z)
    (defs defs' : list Object) :
  sort_contract (Less fs) sort_Sort ->
  (forall f g, In (ObjFunc f) defs -> In (ObjFunc g) defs ->
               fset_Position fs (f_Pos f) = fset_Position fs (f_Pos g) -> f = g) ->
  Permutation defs defs' ->
  printSites (sitesOf sizes maxWidth defs) fs
  = printSites (sitesOf sizes maxWidth defs') fs.
Proof.
  intros Hsort Hinj Hperm. unfold printSites. f_equal.
  destruct (sort_Sort_key_order fs (sitesOf sizes maxWidth defs) Hsort) as [Hp Hs].
  destruct (sort_Sort_key_order fs (sitesOf sizes maxWidth defs') Hsort) as [Hp' Hs'].
  assert (Hsites : Permutation (sitesOf sizes maxWidth defs)
                     (sitesOf sizes maxWidth defs')).
  { assert (Hwide : fst (defsLoop sizes maxWidth defs)
                    = fst (defsLoop sizes maxWidth defs')).
    { apply defsLoop_wide_ext. intros id. rewrite !defsLoop_wide.
      split; intros (tn & ty & Hin & Hrest); exists tn, ty; split; try exact Hrest.
      - now apply (Permutation_in _ Hperm).
      - now apply (Permutation_in _ (Permutation_sym Hperm)). }
    unfold sitesOf. rewrite <- Hwide, !defsLoop_funcs, !findCopySites_flat_map.
    apply Permutation_flat_map. unfold funcsOf. now apply Permutation_flat_map. }
  apply (key_order_unique fs); try assumption.
  - intros x y Hx Hy Hkey.
    apply (Permutation_in _ (Permutation_sym Hp)) in Hx, Hy.
    unfold sitesOf in Hx, Hy.
    apply findCopySites_In in Hx as (Hfx & Hdx & _).
    apply findCopySites_In in Hy as (Hfy & Hdy & _).
    rewrite defsLoop_funcs, funcsOf_In in Hfx, Hfy.
    assert (Hfun : fun_ x = fun_ y) by now apply Hinj.
    destruct x as [f ds], y as [g ds']. simpl in *. subst g. congruence.
  - now rewrite <- Hp, <- Hp', Hsites.
Qed.

(** *** [check] and [main] *)

Lemma checkPkg_error_no_sites (pkg : Package) (maxWidth ws ma : Z)
    (sites : list copySite) (err : string) :
  checkPkg pkg maxWidth ws ma = (sites, Some err) -> sites = [].
Proof.
  unfold checkPkg. destruct (conf_Check (mkStdSizes ws ma) pkg); intros H;
    now inversion H.
Qed.

Lemma checkPkgs_error_no_sites (pkgs : list Package) (maxWidth ws ma : Z) :
  forall (acc sites : list copySite) (err : string),
    checkPkgs pkgs maxWidth ws ma acc = (sites, Some err) -> sites = [].
Proof.
  induction pkgs as [|q rest IH]; intros acc sites err; simpl.
  - discriminate.
  - destruct (checkPkg q maxWidth ws ma) as [s [e|]].
    + intros H. now inversion H.
    + apply IH.
Qed.

(** X15: [check] never returns sites together with an error: when the path
    cannot be stat'ed, a directory cannot be parsed or any package does not
    type check, the result holds no site. *)
Theorem check_error_has_no_sites (p : string) (maxWidth ws ma : Z)
    (sites : list copySite) (err : string) :
  check p maxWidth ws ma = (sites, Some err) -> sites = [].
Proof.
  unfold check. destruct (os_Stat p).
  - destruct (parseGoPkg p) as [e|pkgs].
    + intros H. now inversion H.
    + apply checkPkgs_error_no_sites.
  - destruct (parsePkgDir p) as [e|pkg].
    + intros H. now inversion H.
    + destruct (checkPkg pkg maxWidth ws ma) as [s [e|]]; intros H; now inversion H.
  - intros H. now inversion H.
Qed.

Lemma checkPkgs_ok (maxWidth ws ma : Z) (pkgs : list Package) :
  Forall (fun q => exists defs, conf_Check (mkStdSizes ws ma) q = inr defs) pkgs ->
  forall acc : list copySite,
    checkPkgs pkgs maxWidth ws ma acc
    = (acc ++ flat_map (fun q => fst (checkPkg q maxWidth ws ma)) pkgs, None).
Proof.
  induction 1 as [|q rest [defs Hq] _ IH]; intros acc; simpl.
  - now rewrite app_nil_r.
  - rewrite (checkPkg_ok q maxWidth ws ma defs Hq). simpl.
    rewrite IH. now rewrite <- List.app_assoc.
Qed.

(** X16: for an import path all of whose packages type check, [check]
    returns the sites of the packages one after the other, in the order of
    the packages, and no error. *)
Theorem check_import_path_concatenates (p : string) (maxWidth ws ma : Z)
    (pkgs : list Package) :
  os_Stat p = StatNotExist ->
  parseGoPkg p = inr pkgs ->
  Forall (fun q => exists defs, conf_Check (mkStdSizes ws ma) q = inr defs) pkgs ->
  check p maxWidth ws ma
  = (flat_map (fun q => fst (checkPkg q maxWidth ws ma)) pkgs, None).
Proof.
  intros Hstat Hparse Hall. unfold check. rewrite Hstat, Hparse.
  now rewrite (checkPkgs_ok maxWidth ws ma pkgs Hall).
Qed.

Lemma printSites_length (fs : FileSet) (sites : list copySite) :
  sort_contract (Less fs) sort_Sort ->
  length (printSites sites fs) = length sites.
Proof.
  intros Hsort. destruct (Hsort sites) as [Hp _].
  unfold printSites. rewrite length_map. symmetry. now apply Permutation_length.
Qed.

(** X17: with the flags parsed and one argument given, [main] follows what
    [check] returns.  On an error it logs that error, writes no diagnostic
    line and exits with 1.  Otherwise it logs nothing and writes one line
    for each site; it exits with 2 when there is at least one site, and
    with 0 and no output when there is none. *)
Theorem main_after_check (argv0 : string) (fl : Flags) (p : string)
    (sites : list copySite) (err : option string) :
  sort_contract (Less fset) sort_Sort ->
  check p (maxStructWidth fl) (wordSize fl) (maxAlign fl) = (sites, err) ->
  match err with
  | Some e => main argv0 fl [p] = mkOutcome [] [e +:+ nl] 1
  | None =>
      out_log (main argv0 fl [p]) = []
      /\ Permutation (map (printSite fset) sites) (out_stdout (main argv0 fl [p]))
      /\ length (out_stdout (main argv0 fl [p])) = length sites
      /\ (sites <> [] /\ out_exit (main argv0 fl [p]) = 2
          \/ sites = [] /\ out_exit (main argv0 fl [p]) = 0
             /\ out_stdout (main argv0 fl [p]) = [])
  end.
Proof.
  intros Hsort Hcheck. unfold main. simpl. rewrite Hcheck.
  destruct err as [e|]; [reflexivity|].
  pose proof (printSites_length fset sites Hsort) as Hlen.
  destruct (Hsort sites) as [Hperm _].
  assert (Hlines : Permutation (map (printSite fset) sites) (printSites sites fset)).
  { unfold printSites. now apply Permutation_map. }
  destruct sites as [|site sites]; simpl (0 <? _)%nat; cbv iota; simpl.
  - repeat split; try assumption. right. repeat split.
    destruct (printSites [] fset); [reflexivity | discriminate Hlen].
  - repeat split; try assumption. left. split; [discriminate | reflexivity].
Qed.

End Analyzer.

(** ** The analyzer on the sample package *)


(** The scenario of the specification: with the threshold 16, [Big] (16
    bytes) is not wide and [Bigger] (24 bytes) is, and the method
    [func (b Bigger) M(x Big, y Bigger) Bigger] gets one site for its
    receiver, its parameter [y] and its result. *)
Remark end_to_end_scenario :
  checkPkg Sample.Sizeof Sample.Type_String Sample.fmt_quote Sample.conf_Check
    (mkPackage "pkg" ["pkg/a.go"]) 16 8 8
  = ([mkCopySite Sample.M
        ["receiver"; "parameter 'y' at index 1"; "return value 'Bigger' at index 0"]],
     None).
Proof. reflexivity. Qed.

(** An import path with a package that does not type check: the sites of the
    package before it are dropped, the error is logged, no line is
    written. *)
Remark import_path_with_broken_package :
  main Sample.Sizeof Sample.Type_String Sample.Func_String Sample.fmt_quote
    insertionSort Sample.conf_Check Sample.os_Stat Sample.parseGoPkg
    Sample.parsePkgDir Sample.fset "copyfighter" (mkFlags None None None) ["both"]
  = mkOutcome []
      ["unable to type check package " +:+ Sample.fmt_quote "broken"
         +:+ ": broken/a.go:3:9: undeclared name: y" +:+ nl] 1.
Proof. reflexivity. Qed.

(** On three sites the insertion sort of package [sort] keeps the scan order
    of the two sites with the same position. *)
Remark insertionSort_keeps_scan_order_of_three :
  printSites Sample.Func_String insertionSort
    [Sample.siteB; Sample.siteA1; Sample.siteA2] Sample.fset
  = map (printSite Sample.Func_String Sample.fset)
      [Sample.siteA1; Sample.siteA2; Sample.siteB].
Proof. reflexivity. Qed.


(** Two descriptions are joined with the comma: "A, and B", not "A and B". *)
Lemma sentence_two_counterexample :
  sentence ["A"; "B"] = "A, and B" /\ sentence ["A"; "B"] <> "A and B".
Proof. split; [reflexivity|]. vm_compute. discriminate. Qed.

(** With the threshold -1 the sample package is analyzed, under the word
    size 8 and the maximum alignment 8 and also under the word size 0:
    [check] returns a site and no error, and [main] logs nothing and exits
    with 2. *)
Lemma nonpositive_configuration_counterexample :
  check Sample.Sizeof Sample.Type_String Sample.fmt_quote Sample.conf_Check
    Sample.os_Stat Sample.parseGoPkg Sample.parsePkgDir "pkg" (-1) 8 8
  = ([mkCopySite Sample.M
        ["receiver"; "parameter 'x' at index 0"; "parameter 'y' at index 1";
         "return value 'Bigger' at index 0"]],
     None)
  /\ check Sample.Sizeof Sample.Type_String Sample.fmt_quote Sample.conf_Check
       Sample.os_Stat Sample.parseGoPkg Sample.parsePkgDir "pkg" (-1) 0 8
     = ([mkCopySite Sample.M
           ["receiver"; "parameter 'x' at index 0"; "parameter 'y' at index 1";
            "return value 'Bigger' at index 0"]],
        None)
  /\ out_log (main Sample.Sizeof Sample.Type_String Sample.Func_String
                Sample.fmt_quote insertionSort Sample.conf_Check Sample.os_Stat
                Sample.parseGoPkg Sample.parsePkgDir Sample.fset "copyfighter"
                (mkFlags (Some (-1)) (Some 0) (Some 8)) ["pkg"]) = []
  /\ out_exit (main Sample.Sizeof Sample.Type_String Sample.Func_String
                 Sample.fmt_quote insertionSort Sample.conf_Check Sample.os_Stat
                 Sample.parseGoPkg Sample.parsePkgDir Sample.fset "copyfighter"
                 (mkFlags (Some (-1)) (Some 0) (Some 8)) ["pkg"]) = 2.
Proof. split; [|split; [|split]]; reflexivity. Qed.

(** The directory [pkg] exists and parses; the threshold is -1. *)
Lemma configuration_defaults_without_validation_witness :
  Sample.os_Stat "pkg" = StatOk
  /\ Sample.parsePkgDir "pkg" = inr (mkPackage "pkg" ["pkg/a.go"])
  /\ 0 < 8
  /\ check Sample.Sizeof Sample.Type_String Sample.fmt_quote Sample.conf_Check
       Sample.os_Stat Sample.parseGoPkg Sample.parsePkgDir "pkg" (-1) 8 8
     = checkPkg Sample.Sizeof Sample.Type_String Sample.fmt_quote Sample.conf_Check
         (mkPackage "pkg" ["pkg/a.go"]) (-1) 8 8.
Proof.
  assert (Hpos : 0 < 8) by lia.
  split; [reflexivity|]. split; [reflexivity|]. split; [exact Hpos|].
  exact (proj1 (proj2 (proj2
    (configuration_defaults_without_validation Sample.Sizeof Sample.Type_String
       Sample.fmt_quote Sample.conf_Check Sample.os_Stat Sample.parseGoPkg
       Sample.parsePkgDir "pkg" (mkPackage "pkg" ["pkg/a.go"]) (-1) 8 8
       eq_refl eq_refl Hpos Hpos)))).
Defined.

(** Sites with the same position need not keep their scan order.  A sort
    that keeps the promise of [sort.Sort] reports (fileB,10,1), (fileA,5,1),
    (fileA,5,1) with the two sites of fileA exchanged; and the sort of short
    slices of Go 1.7 to 1.18 reports seven sites that start with the two of
    (fileA,5,1) with these two exchanged. *)
Lemma tie_order_counterexample :
  (sort_contract (Less Sample.fset) tieReversingSort
   /\ printSites Sample.Func_String tieReversingSort
        [Sample.siteB; Sample.siteA1; Sample.siteA2] Sample.fset
      = map (printSite Sample.Func_String Sample.fset)
          [Sample.siteA2; Sample.siteA1; Sample.siteB])
  /\ (sort_contract (Less Sample.fset) shortSliceSort
      /\ printSites Sample.Func_String shortSliceSort Sample.sevenSites Sample.fset
         = map (printSite Sample.Func_String Sample.fset)
             [Sample.siteA0; Sample.siteA2; Sample.siteA1; Sample.siteB;
              Sample.siteB2; Sample.siteB3; Sample.siteB4])
  /\ map (printSite Sample.Func_String Sample.fset)
        [Sample.siteA2; Sample.siteA1; Sample.siteB]
     <> map (printSite Sample.Func_String Sample.fset)
          [Sample.siteA1; Sample.siteA2; Sample.siteB].
Proof.
  split; [|split]; [split|split|].
  - apply tieReversingSort_contract, Less_asym.
  - reflexivity.
  - apply shortSliceSort_contract, Less_asym.
  - reflexivity.
  - vm_compute. discriminate.
Qed.

(** The insertion sort keeps the promise of [sort.Sort]. *)
Lemma sites_reported_in_key_order_witness :
  sort_contract (Less Sample.fset) insertionSort
  /\ StronglySorted
       (fun a b => keyCompare (siteKey Sample.fset a) (siteKey Sample.fset b) <> Gt)
       (insertionSort (Less Sample.fset) [Sample.siteB; Sample.siteA1; Sample.siteA2]).
Proof.
  assert (H : sort_contract (Less Sample.fset) insertionSort).
  { apply insertionSort_contract, Less_asym. }
  split; [exact H|].
  exact (proj1 (proj2 (proj2
    (sites_reported_in_key_order Sample.Func_String insertionSort Sample.fset
       [Sample.siteB; Sample.siteA1; Sample.siteA2] H)))).
Defined.

(** [P] takes and returns [*Bigger] only. *)
Lemma pointers_yield_no_copy_site_witness :
  (forall f v, In f [Sample.P] -> In v (positions (f_Type f)) ->
               isPointer (v_Type v) = true)
  /\ findCopySites Sample.Type_String [Sample.P] Sample.wide = [].
Proof.
  assert (H : forall f v, In f [Sample.P] -> In v (positions (f_Type f)) ->
                          isPointer (v_Type v) = true).
  { intros f v [<-|[]] Hv. simpl in Hv.
    destruct Hv as [<-|[<-|[<-|[]]]]; reflexivity. }
  split; [exact H|].
  exact (proj2 (pointers_yield_no_copy_site Sample.Type_String [Sample.P]
                  Sample.wide H)).
Defined.

(** The line of the method [M], and the lines of three sites. *)
Lemma one_line_per_copy_site_witness :
  sort_contract (Less Sample.fset) insertionSort
  /\ ["receiver"; "parameter 'y' at index 1"] <> []
  /\ printSite Sample.Func_String Sample.fset
       (mkCopySite Sample.M
          (["receiver"; "parameter 'y' at index 1"]
             ++ ["return value 'Bigger' at index 0"]))
     = "fileA.go:5:1: receiver, parameter 'y' at index 1, and return value 'Bigger' at index 0 should be made into pointers (func M)"
         +:+ String (Ascii.ascii_of_nat 10) EmptyString
  /\ printSite Sample.Func_String Sample.fset Sample.siteA2
     = "fileA.go:5:1: parameter at index 0 should be made into a pointer (func A2)"
         +:+ String (Ascii.ascii_of_nat 10) EmptyString
  /\ length (printSites Sample.Func_String insertionSort
               [Sample.siteB; Sample.siteA1; Sample.siteA2] Sample.fset) = 3%nat.
Proof.
  assert (H : sort_contract (Less Sample.fset) insertionSort).
  { apply insertionSort_contract, Less_asym. }
  assert (Hne : ["receiver"; "parameter 'y' at index 1"] <> ([] : list string))
    by discriminate.
  pose proof (one_line_per_copy_site Sample.Func_String insertionSort Sample.fset
                [Sample.siteB; Sample.siteA1; Sample.siteA2] H)
    as (Hlen & _ & Hone & Hmany & _ & _).
  split; [exact H|]. split; [exact Hne|]. split; [|split].
  - exact (Hmany Sample.M ["receiver"; "parameter 'y' at index 1"]
             "return value 'Bigger' at index 0" Hne).
  - exact (Hone (fun_ Sample.siteA2) "parameter at index 0").
  - exact Hlen.
Defined.

(** The package [broken] does not type check. *)
Lemma type_check_failure_aborts_witness :
  Sample.conf_Check (mkStdSizes 8 8) (mkPackage "broken" ["broken/a.go"])
  = inl "broken/a.go:3:9: undeclared name: y"
  /\ checkPkg Sample.Sizeof Sample.Type_String Sample.fmt_quote Sample.conf_Check
       (mkPackage "broken" ["broken/a.go"]) 16 8 8
     = ([], Some ("unable to type check package " +:+ Sample.fmt_quote "broken"
                    +:+ ": broken/a.go:3:9: undeclared name: y")).
Proof.
  split; [reflexivity|].
  exact (proj1 (type_check_failure_aborts Sample.Sizeof Sample.Type_String
                  Sample.Func_String Sample.fmt_quote insertionSort
                  Sample.conf_Check Sample.os_Stat Sample.parseGoPkg
                  Sample.parsePkgDir Sample.fset
                  (mkPackage "broken" ["broken/a.go"]) (mkFlags None None None)
                  "broken/a.go:3:9: undeclared name: y" eq_refl)).
Defined.

(** [A] takes an anonymous struct of 32 bytes, an [int] and a slice. *)
Lemma only_named_types_are_flagged_witness :
  isNamed (Struct [Basic "int64"; Basic "int64"; Basic "int64"; Basic "int64"]) = false
  /\ (forall f v, In f [Sample.A] -> In v (positions (f_Type f)) ->
                  isNamed (v_Type v) = false)
  /\ isWideStructTyped
       (Struct [Basic "int64"; Basic "int64"; Basic "int64"; Basic "int64"])
       Sample.wide = false
  /\ findCopySites Sample.Type_String [Sample.A] Sample.wide = [].
Proof.
  assert (H : forall f v, In f [Sample.A] -> In v (positions (f_Type f)) ->
                          isNamed (v_Type v) = false).
  { intros f v [<-|[]] Hv. simpl in Hv.
    destruct Hv as [<-|[<-|[<-|[]]]]; reflexivity. }
  split; [reflexivity|]. split; [exact H|].
  exact (only_named_types_are_flagged Sample.Type_String
           (Struct [Basic "int64"; Basic "int64"; Basic "int64"; Basic "int64"])
           [Sample.A] Sample.wide eq_refl H).
Defined.

(** ** Finding and parsing the packages: properties *)

Section DiscoveryFacts.

Variable fmt_quote : string -> string.
Variable os_Stat_info : string -> string + FileInfo.
Variable parser_ParseDir : string -> string + list Package.
Variable filepath_Clean : string -> string.
Variable matchingDirs : string -> list string.
Variable build_ImportDir : string -> ImportResult.

(** X18: [parsePkgDir] returns a package exactly when the path can be
    stat'ed, is a directory, parses, and holds one package: that one. *)
Theorem parsePkgDir_ok_iff (p : string) (pkg : Package) :
  Discovery.parsePkgDir fmt_quote os_Stat_info parser_ParseDir p = inr pkg
  <-> exists fi : FileInfo,
        os_Stat_info p = inr fi /\ fi_IsDir fi = true
        /\ parser_ParseDir p = inr [pkg].
Proof.
  unfold Discovery.parsePkgDir. split.
  - destruct (os_Stat_info p) as [e|fi]; [discriminate|].
    destruct (fi_IsDir fi) eqn:Hdir; simpl; [|discriminate].
    destruct (parser_ParseDir p) as [e|mp]; [discriminate|].
    destruct mp as [|v [|w rest]]; simpl; try discriminate.
    intros H. injection H as <-. now exists fi.
  - intros (fi & -> & -> & ->). reflexivity.
Qed.

(** X19: a directory that does not hold exactly one package is refused with
    the message "more than one package found", followed by the names of the
    packages joined by commas; this is also the message for a directory
    that holds no package, with no name after it. *)
Theorem parsePkgDir_not_one_package (p : string) (fi : FileInfo) (mp : list Package) :
  os_Stat_info p = inr fi ->
  fi_IsDir fi = true ->
  parser_ParseDir p = inr mp ->
  length mp <> 1%nat ->
  Discovery.parsePkgDir fmt_quote os_Stat_info parser_ParseDir p
  = inl ("more than one package found in " +:+ fmt_quote p +:+ ": "
           +:+ strings_Join (map pkg_Name mp) ",")
  /\ (mp = [] -> strings_Join (map pkg_Name mp) "," = "").
Proof.
  intros Hstat Hdir Hparse Hlen. split.
  - unfold Discovery.parsePkgDir. rewrite Hstat, Hdir, Hparse. simpl.
    apply Nat.eqb_neq in Hlen. now rewrite Hlen.
  - intros ->. reflexivity.
Qed.

Lemma parseDirs_ok (dirs : list string) :
  forall acc pkgs : list Package,
    Discovery.parseDirs fmt_quote os_Stat_info parser_ParseDir build_ImportDir
      dirs acc = inr pkgs ->
    exists new : list Package,
      pkgs = acc ++ new
      /\ Forall2
           (fun d pkg =>
              Discovery.parsePkgDir fmt_quote os_Stat_info parser_ParseDir d = inr pkg)
           (List.filter (fun d => match build_ImportDir d with
                                  | ImportOk => true
                                  | _ => false
                                  end) dirs)
           new
      /\ Forall (fun d => forall err, build_ImportDir d <> ImportError err) dirs.
Proof.
  induction dirs as [|d rest IH]; intros acc pkgs; simpl.
  - intros H. injection H as <-. exists []. rewrite app_nil_r.
    repeat split; constructor.
  - destruct (build_ImportDir d) eqn:Himp.
    + destruct (Discovery.parsePkgDir fmt_quote os_Stat_info parser_ParseDir d)
        as [e|pkg] eqn:Hpkg; [discriminate|].
      intros H. destruct (IH _ _ H) as (new & -> & Hall & Hno).
      exists (pkg :: new). rewrite <- List.app_assoc. simpl.
      repeat split; [now constructor|]. constructor; [|exact Hno].
      intros err. rewrite Himp. discriminate.
    + intros H. destruct (IH _ _ H) as (new & Hpkgs & Hall & Hno).
      exists new. repeat split; try assumption. constructor; [|exact Hno].
      intros err. rewrite Himp. discriminate.
    + discriminate.
Qed.

(** X20: when [parseGoPkg] succeeds it returns at least one package, no
    directory that matched failed to build, and the packages are those that
    [parsePkgDir] gives for the matching directories with Go files, in the
    order of the walk. *)
Theorem parseGoPkg_ok (p : string) (pkgs : list Package) :
  Discovery.parseGoPkg fmt_quote os_Stat_info parser_ParseDir filepath_Clean
    matchingDirs build_ImportDir p = inr pkgs ->
  pkgs <> []
  /\ Forall2
       (fun d pkg =>
          Discovery.parsePkgDir fmt_quote os_Stat_info parser_ParseDir d = inr pkg)
       (List.filter (fun d => match build_ImportDir d with
                              | ImportOk => true
                              | _ => false
                              end) (matchingDirs (filepath_Clean p)))
       pkgs
  /\ Forall (fun d => forall err, build_ImportDir d <> ImportError err)
       (matchingDirs (filepath_Clean p)).
Proof.
  unfold Discovery.parseGoPkg.
  destruct (Discovery.parseDirs fmt_quote os_Stat_info parser_ParseDir
              build_ImportDir (matchingDirs (filepath_Clean p)) [])
    as [e|found] eqn:Hdirs; [discriminate|].
  destruct (length found =? 0)%nat eqn:Hlen; [discriminate|].
  intros H. injection H as <-.
  destruct (parseDirs_ok _ _ _ Hdirs) as (new & Hnew & Hall & Hno).
  simpl in Hnew. subst new. split; [|split; assumption].
  intros ->. discriminate Hlen.
Qed.

Lemma parseDirs_no_go (dirs : list string) (acc : list Package) :
  Forall (fun d => build_ImportDir d = ImportNoGo) dirs ->
  Discovery.parseDirs fmt_quote os_Stat_info parser_ParseDir build_ImportDir
    dirs acc = inr acc.
Proof.
  induction 1 as [|d rest Hd _ IH]; simpl; [reflexivity|]. now rewrite Hd.
Qed.

(** X21: when no directory matches, or every directory that matches is
    without Go files, [parseGoPkg] fails with "unable to find packages
    matching" and the cleaned path. *)
Theorem parseGoPkg_nothing_found (p : string) :
  Forall (fun d => build_ImportDir d = ImportNoGo)
    (matchingDirs (filepath_Clean p)) ->
  Discovery.parseGoPkg fmt_quote os_Stat_info parser_ParseDir filepath_Clean
    matchingDirs build_ImportDir p
  = inl ("unable to find packages matching " +:+ fmt_quote (filepath_Clean p)).
Proof.
  intros H. unfold Discovery.parseGoPkg. now rewrite (parseDirs_no_go _ [] H).
Qed.

Lemma parseDirs_build_error (before after : list string) (d err : string) :
  Forall (fun b =>
            build_ImportDir b = ImportNoGo
            \/ (build_ImportDir b = ImportOk
                /\ exists pkg,
                     Discovery.parsePkgDir fmt_quote os_Stat_info parser_ParseDir b
                     = inr pkg)) before ->
  build_ImportDir d = ImportError err ->
  forall acc : list Package,
    Discovery.parseDirs fmt_quote os_Stat_info parser_ParseDir build_ImportDir
      (before ++ d :: after) acc
    = inl ("unable to build code in " +:+ fmt_quote d +:+ ": " +:+ err).
Proof.
  intros Hbefore Hd.
  induction Hbefore as [|b rest [Hb|[Hb [pkg Hpkg]]] _ IH]; intros acc; simpl.
  - now rewrite Hd.
  - rewrite Hb. apply IH.
  - rewrite Hb, Hpkg. apply IH.
Qed.

(** X22: a matching directory that cannot be built, for another reason than
    having no Go files, makes [parseGoPkg] fail with "unable to build code
    in" that directory, and the packages parsed before it are dropped. *)
Theorem parseGoPkg_build_error (p : string) (before after : list string)
    (d err : string) :
  matchingDirs (filepath_Clean p) = before ++ d :: after ->
  Forall (fun b =>
            build_ImportDir b = ImportNoGo
            \/ (build_ImportDir b = ImportOk
                /\ exists pkg,
                     Discovery.parsePkgDir fmt_quote os_Stat_info parser_ParseDir b
                     = inr pkg)) before ->
  build_ImportDir d = ImportError err ->
  Discovery.parseGoPkg fmt_quote os_Stat_info parser_ParseDir filepath_Clean
    matchingDirs build_ImportDir p
  = inl ("unable to build code in " +:+ fmt_quote d +:+ ": " +:+ err).
Proof.
  intros Hdirs Hbefore Hd. unfold Discovery.parseGoPkg.
  now rewrite Hdirs, (parseDirs_build_error before after d err Hbefore Hd []).
Qed.

(** X23: given a path that exists and is not a directory, [check] with this
    [parsePkgDir] analyzes nothing and returns the error that the path is
    not a directory. *)
Theorem check_refuses_plain_file
    (Sizeof : StdSizes -> Ty -> Z) (Type_String : Ty -> string)
    (conf_Check : StdSizes -> Package -> string + list Object)
    (os_Stat : string -> StatResult)
    (parseGoPkg : string -> string + list Package)
    (p : string) (fi : FileInfo) (maxWidth ws ma : Z) :
  os_Stat p = StatOk ->
  os_Stat_info p = inr fi ->
  fi_IsDir fi = false ->
  check Sizeof Type_String fmt_quote conf_Check os_Stat parseGoPkg
    (Discovery.parsePkgDir fmt_quote os_Stat_info parser_ParseDir)
    p maxWidth ws ma
  = ([], Some (fmt_quote p +:+ " is not a directory")).
Proof.
  intros Hstat Hinfo Hdir. unfold check, Discovery.parsePkgDir.
  now rewrite Hstat, Hinfo, Hdir.
Qed.

End DiscoveryFacts.

(** ** The further properties on the sample package *)

(** "A, B, and C". *)
Lemma sentence_init_last_witness :
  ["A"; "B"] <> [] /\ sentence (["A"; "B"] ++ ["C"]) = "A, B, and C".
Proof.
  assert (H : ["A"; "B"] <> ([] : list string)) by discriminate.
  split; [exact H|]. exact (sentence_init_last ["A"; "B"] "C" H).
Defined.

(** The site of [M] has three descriptions; [M] has a receiver, two
    parameters and one result. *)
Lemma site_descriptions_bounded_witness :
  In (mkCopySite Sample.M
        ["receiver"; "parameter 'y' at index 1"; "return value 'Bigger' at index 0"])
    (findCopySites Sample.Type_String [Sample.M; Sample.P] Sample.wide)
  /\ (1 <= 3 <= 1 + 2 + 1)%nat.
Proof.
  assert (H : In (mkCopySite Sample.M
                    ["receiver"; "parameter 'y' at index 1";
                     "return value 'Bigger' at index 0"])
                (findCopySites Sample.Type_String [Sample.M; Sample.P] Sample.wide)).
  { left. reflexivity. }
  split; [exact H|].
  exact (site_descriptions_bounded Sample.Type_String [Sample.M; Sample.P]
           Sample.wide _ H).
Defined.

(** The parameter [y] of [M] stands at index 1, after [x]. *)
Lemma wide_parameter_is_described_witness :
  exists ds : list string,
    findCopySites Sample.Type_String [Sample.M] Sample.wide
    = [mkCopySite Sample.M ds]
    /\ In "parameter 'y' at index 1" ds.
Proof.
  exact (wide_parameter_is_described Sample.Type_String Sample.wide Sample.M
           [mkVar "x" (Named Sample.Big)] [] (mkVar "y" (Named Sample.Bigger))
           eq_refl eq_refl).
Defined.

(** The result of [M] stands at index 0. *)
Lemma wide_result_is_described_witness :
  exists ds : list string,
    findCopySites Sample.Type_String [Sample.M] Sample.wide
    = [mkCopySite Sample.M ds]
    /\ In "return value 'Bigger' at index 0" ds.
Proof.
  exact (wide_result_is_described Sample.Type_String Sample.wide Sample.M
           [] [] (mkVar "" (Named Sample.Bigger)) eq_refl eq_refl).
Defined.

(** The package [pkg] type checks. *)
Lemma checkPkg_reports_offending_functions_witness :
  Sample.conf_Check (mkStdSizes 8 8) (mkPackage "pkg" ["pkg/a.go"]) = inr Sample.defs
  /\ (In (mkCopySite Sample.P ["receiver"])
        (fst (checkPkg Sample.Sizeof Sample.Type_String Sample.fmt_quote
                Sample.conf_Check (mkPackage "pkg" ["pkg/a.go"]) 16 8 8))
      <-> In (ObjFunc Sample.P) Sample.defs
          /\ ["receiver"]
             = descriptions Sample.Type_String
                 (fst (defsLoop Sample.Sizeof (mkStdSizes 8 8) 16 Sample.defs))
                 (f_Type Sample.P)
          /\ ["receiver"] <> []).
Proof.
  split; [reflexivity|].
  exact (checkPkg_reports_offending_functions Sample.Sizeof Sample.Type_String
           Sample.fmt_quote Sample.conf_Check (mkPackage "pkg" ["pkg/a.go"])
           16 8 8 Sample.defs (mkCopySite Sample.P ["receiver"]) eq_refl).
Defined.

(** The objects of the sample in the opposite order. *)
Lemma defs_order_does_not_matter_witness :
  Permutation Sample.defs (rev Sample.defs)
  /\ Permutation
       (sitesOf Sample.Sizeof Sample.Type_String (mkStdSizes 8 8) 16 Sample.defs)
       (sitesOf Sample.Sizeof Sample.Type_String (mkStdSizes 8 8) 16 (rev Sample.defs)).
Proof.
  assert (H : Permutation Sample.defs (rev Sample.defs)) by apply Permutation_rev.
  split; [exact H|].
  exact (proj2 (defs_order_does_not_matter Sample.Sizeof Sample.Type_String
                  (mkStdSizes 8 8) 16 Sample.defs (rev Sample.defs) H)).
Defined.

(** No type of the sample is larger than 24 bytes. *)
Lemma nothing_wide_nothing_reported_witness :
  (forall tn ty, In (ObjTypeName tn ty) Sample.defs ->
                 Sample.Sizeof (mkStdSizes 8 8) ty <= 24)
  /\ sitesOf Sample.Sizeof Sample.Type_String (mkStdSizes 8 8) 24 Sample.defs = [].
Proof.
  assert (H : forall tn ty, In (ObjTypeName tn ty) Sample.defs ->
                            Sample.Sizeof (mkStdSizes 8 8) ty <= 24).
  { intros tn ty [H|[H|[H|[H|[H|[]]]]]]; try discriminate H;
      injection H as <- <-; vm_compute; discriminate. }
  split; [exact H|].
  exact (proj2 (nothing_wide_nothing_reported Sample.Sizeof Sample.Type_String
                  (mkStdSizes 8 8) 24 Sample.defs H)).
Defined.

(** [Bigger] is wide under the threshold 16, and under 10. *)
Lemma wide_set_shrinks_with_threshold_witness :
  10 <= 16
  /\ isWideStructTyped (Named Sample.Bigger)
       (fst (defsLoop Sample.Sizeof (mkStdSizes 8 8) 16 Sample.defs)) = true
  /\ isWideStructTyped (Named Sample.Bigger)
       (fst (defsLoop Sample.Sizeof (mkStdSizes 8 8) 10 Sample.defs)) = true.
Proof.
  assert (H : 10 <= 16) by lia.
  split; [exact H|]. split; [reflexivity|].
  exact (wide_set_shrinks_with_threshold Sample.Sizeof (mkStdSizes 8 8) 10 16
           Sample.defs (Named Sample.Bigger) H eq_refl).
Defined.

(** Exchanging the first and the last of three sites. *)
Lemma Swap_exchanges_witness :
  (0 < Len [Sample.siteB; Sample.siteA1; Sample.siteA2])%nat
  /\ (2 < Len [Sample.siteB; Sample.siteA1; Sample.siteA2])%nat
  /\ Swap [Sample.siteB; Sample.siteA1; Sample.siteA2] 0 2 !! 0%nat = Some Sample.siteA2.
Proof.
  assert (H0 : (0 < Len [Sample.siteB; Sample.siteA1; Sample.siteA2])%nat)
    by (unfold Len; simpl; lia).
  assert (H2 : (2 < Len [Sample.siteB; Sample.siteA1; Sample.siteA2])%nat)
    by (unfold Len; simpl; lia).
  split; [exact H0|]. split; [exact H2|].
  exact (proj1 (Swap_exchanges [Sample.siteB; Sample.siteA1; Sample.siteA2] 0 2 H0 H2)).
Defined.

Lemma Swap_twice_witness :
  (0 < Len [Sample.siteB; Sample.siteA1; Sample.siteA2])%nat
  /\ (2 < Len [Sample.siteB; Sample.siteA1; Sample.siteA2])%nat
  /\ Swap (Swap [Sample.siteB; Sample.siteA1; Sample.siteA2] 0 2) 0 2
     = [Sample.siteB; Sample.siteA1; Sample.siteA2].
Proof.
  assert (H0 : (0 < Len [Sample.siteB; Sample.siteA1; Sample.siteA2])%nat)
    by (unfold Len; simpl; lia).
  assert (H2 : (2 < Len [Sample.siteB; Sample.siteA1; Sample.siteA2])%nat)
    by (unfold Len; simpl; lia).
  split; [exact H0|]. split; [exact H2|].
  exact (Swap_twice [Sample.siteB; Sample.siteA1; Sample.siteA2] 0 2 H0 H2).
Defined.

(** Two sites at different positions, scanned in either order. *)
Lemma printSites_ignores_scan_order_witness :
  sort_contract (Less Sample.fset) insertionSort
  /\ Permutation [Sample.siteB; Sample.siteA1] [Sample.siteA1; Sample.siteB]
  /\ printSites Sample.Func_String insertionSort [Sample.siteB; Sample.siteA1] Sample.fset
     = printSites Sample.Func_String insertionSort [Sample.siteA1; Sample.siteB] Sample.fset.
Proof.
  assert (Hsort : sort_contract (Less Sample.fset) insertionSort).
  { apply insertionSort_contract, Less_asym. }
  assert (Hperm : Permutation [Sample.siteB; Sample.siteA1] [Sample.siteA1; Sample.siteB])
    by apply perm_swap.
  assert (Hinj : forall x y, In x [Sample.siteB; Sample.siteA1] ->
                             In y [Sample.siteB; Sample.siteA1] ->
                             siteKey Sample.fset x = siteKey Sample.fset y -> x = y).
  { intros x y [<-|[<-|[]]] [<-|[<-|[]]] Hkey;
      try reflexivity; vm_compute in Hkey; discriminate Hkey. }
  split; [exact Hsort|]. split; [exact Hperm|].
  exact (printSites_ignores_scan_order Sample.Func_String insertionSort Sample.fset
           _ _ Hsort Hinj Hperm).
Defined.

(** [M] and [P] are declared at different positions. *)
Lemma report_ignores_defs_order_witness :
  sort_contract (Less Sample.fset) insertionSort
  /\ Permutation Sample.defs (rev Sample.defs)
  /\ printSites Sample.Func_String insertionSort
       (sitesOf Sample.Sizeof Sample.Type_String (mkStdSizes 8 8) 16 Sample.defs)
       Sample.fset
     = printSites Sample.Func_String insertionSort
         (sitesOf Sample.Sizeof Sample.Type_String (mkStdSizes 8 8) 16 (rev Sample.defs))
         Sample.fset.
Proof.
  assert (Hsort : sort_contract (Less Sample.fset) insertionSort).
  { apply insertionSort_contract, Less_asym. }
  assert (Hperm : Permutation Sample.defs (rev Sample.defs)) by apply Permutation_rev.
  assert (Hinj : forall f g, In (ObjFunc f) Sample.defs -> In (ObjFunc g) Sample.defs ->
                             fset_Position Sample.fset (f_Pos f)
                             = fset_Position Sample.fset (f_Pos g) -> f = g).
  { intros f g [H|[H|[H|[H|[H|[]]]]]] [H'|[H'|[H'|[H'|[H'|[]]]]]] Hkey;
      try discriminate H; try discriminate H';
      injection H as <-; injection H' as <-;
      try reflexivity; vm_compute in Hkey; discriminate Hkey. }
  split; [exact Hsort|]. split; [exact Hperm|].
  exact (report_ignores_defs_order Sample.Sizeof Sample.Type_String Sample.Func_String
           insertionSort Sample.fset (mkStdSizes 8 8) 16 _ _ Hsort Hinj Hperm).
Defined.

(** The directory [broken] gives an error and no site. *)
Lemma check_error_has_no_sites_witness :
  check Sample.Sizeof Sample.Type_String Sample.fmt_quote Sample.conf_Check
    Sample.os_Stat Sample.parseGoPkg Sample.parsePkgDir "broken" 16 8 8
  = ([], Some ("unable to type check package " +:+ Sample.fmt_quote "broken"
                 +:+ ": broken/a.go:3:9: undeclared name: y"))
  /\ ([] : list copySite) = [].
Proof.
  split; [reflexivity|].
  exact (check_error_has_no_sites Sample.Sizeof Sample.Type_String Sample.fmt_quote
           Sample.conf_Check Sample.os_Stat Sample.parseGoPkg Sample.parsePkgDir
           "broken" 16 8 8 [] _ eq_refl).
Defined.

(** The import path [all/...] holds the packages [pkg] and [other], which
    both type check. *)
Lemma check_import_path_concatenates_witness :
  Sample.os_Stat "all/..." = StatNotExist
  /\ Discovery.parseGoPkg Sample.fmt_quote Sample.os_Stat_info Sample.parser_ParseDir
       Sample.filepath_Clean Sample.matchingDirs Sample.build_ImportDir "all/..."
     = inr [mkPackage "pkg" ["pkg/a.go"]; mkPackage "other" ["other/b.go"]]
  /\ length (fst (check Sample.Sizeof Sample.Type_String Sample.fmt_quote
                    Sample.conf_Check Sample.os_Stat
                    (Discovery.parseGoPkg Sample.fmt_quote Sample.os_Stat_info
                       Sample.parser_ParseDir Sample.filepath_Clean
                       Sample.matchingDirs Sample.build_ImportDir)
                    Sample.parsePkgDir "all/..." 16 8 8)) = 2%nat.
Proof.
  split; [reflexivity|]. split; [reflexivity|].
  assert (Hall : Forall (fun q => exists defs,
                           Sample.conf_Check (mkStdSizes 8 8) q = inr defs)
                   [mkPackage "pkg" ["pkg/a.go"]; mkPackage "other" ["other/b.go"]]).
  { repeat constructor; exists Sample.defs; reflexivity. }
  rewrite (check_import_path_concatenates Sample.Sizeof Sample.Type_String
             Sample.fmt_quote Sample.conf_Check Sample.os_Stat
             (Discovery.parseGoPkg Sample.fmt_quote Sample.os_Stat_info
                Sample.parser_ParseDir Sample.filepath_Clean
                Sample.matchingDirs Sample.build_ImportDir)
             Sample.parsePkgDir "all/..." 16 8 8 _ eq_refl eq_refl Hall).
  reflexivity.
Defined.

(** On the sample package [check] returns one site and no error. *)
Lemma main_after_check_witness :
  sort_contract (Less Sample.fset) insertionSort
  /\ check Sample.Sizeof Sample.Type_String Sample.fmt_quote Sample.conf_Check
       Sample.os_Stat Sample.parseGoPkg Sample.parsePkgDir "pkg" 16 8 8
     = ([mkCopySite Sample.M
           ["receiver"; "parameter 'y' at index 1";
            "return value 'Bigger' at index 0"]],
        None)
  /\ length (out_stdout
               (main Sample.Sizeof Sample.Type_String Sample.Func_String
                  Sample.fmt_quote insertionSort Sample.conf_Check Sample.os_Stat
                  Sample.parseGoPkg Sample.parsePkgDir Sample.fset "copyfighter"
                  (mkFlags None None None) ["pkg"])) = 1%nat.
Proof.
  assert (Hsort : sort_contract (Less Sample.fset) insertionSort).
  { apply insertionSort_contract, Less_asym. }
  split; [exact Hsort|]. split; [reflexivity|].
  exact (proj1 (proj2 (proj2
    (main_after_check Sample.Sizeof Sample.Type_String Sample.Func_String
       Sample.fmt_quote insertionSort Sample.conf_Check Sample.os_Stat
       Sample.parseGoPkg Sample.parsePkgDir Sample.fset "copyfighter"
       (mkFlags None None None) "pkg" _ None Hsort eq_refl)))).
Defined.

(** The directory [empty] parses to no package. *)
Lemma parsePkgDir_not_one_package_witness :
  Sample.os_Stat_info "empty" = inr (mkFileInfo true)
  /\ Sample.parser_ParseDir "empty" = inr []
  /\ Discovery.parsePkgDir Sample.fmt_quote Sample.os_Stat_info Sample.parser_ParseDir
       "empty"
     = inl ("more than one package found in " +:+ Sample.fmt_quote "empty" +:+ ": "
              +:+ strings_Join (map pkg_Name []) ",").
Proof.
  split; [reflexivity|]. split; [reflexivity|].
  assert (Hlen : length ([] : list Package) <> 1%nat) by discriminate.
  exact (proj1 (parsePkgDir_not_one_package Sample.fmt_quote Sample.os_Stat_info
                  Sample.parser_ParseDir "empty" (mkFileInfo true) []
                  eq_refl eq_refl eq_refl Hlen)).
Defined.

(** [all/...] gives the packages of [pkg] and [other]; [empty] is skipped. *)
Lemma parseGoPkg_ok_witness :
  Discovery.parseGoPkg Sample.fmt_quote Sample.os_Stat_info Sample.parser_ParseDir
    Sample.filepath_Clean Sample.matchingDirs Sample.build_ImportDir "all/..."
  = inr [mkPackage "pkg" ["pkg/a.go"]; mkPackage "other" ["other/b.go"]]
  /\ [mkPackage "pkg" ["pkg/a.go"]; mkPackage "other" ["other/b.go"]] <> [].
Proof.
  split; [reflexivity|].
  exact (proj1 (parseGoPkg_ok Sample.fmt_quote Sample.os_Stat_info
                  Sample.parser_ParseDir Sample.filepath_Clean Sample.matchingDirs
                  Sample.build_ImportDir "all/..." _ eq_refl)).
Defined.

(** [none/...] matches a directory without Go files only. *)
Lemma parseGoPkg_nothing_found_witness :
  Forall (fun d => Sample.build_ImportDir d = ImportNoGo)
    (Sample.matchingDirs (Sample.filepath_Clean "none/..."))
  /\ Discovery.parseGoPkg Sample.fmt_quote Sample.os_Stat_info Sample.parser_ParseDir
       Sample.filepath_Clean Sample.matchingDirs Sample.build_ImportDir "none/..."
     = inl ("unable to find packages matching " +:+ Sample.fmt_quote "none/...").
Proof.
  assert (H : Forall (fun d => Sample.build_ImportDir d = ImportNoGo)
                (Sample.matchingDirs (Sample.filepath_Clean "none/...")))
    by (repeat constructor).
  split; [exact H|].
  exact (parseGoPkg_nothing_found Sample.fmt_quote Sample.os_Stat_info
           Sample.parser_ParseDir Sample.filepath_Clean Sample.matchingDirs
           Sample.build_ImportDir "none/..." H).
Defined.

(** [bad/...] matches [cgo], which cannot be built, after [pkg]. *)
Lemma parseGoPkg_build_error_witness :
  Sample.matchingDirs (Sample.filepath_Clean "bad/...") = ["pkg"] ++ "cgo" :: ["other"]
  /\ Sample.build_ImportDir "cgo" = ImportError "build constraints exclude all Go files"
  /\ Discovery.parseGoPkg Sample.fmt_quote Sample.os_Stat_info Sample.parser_ParseDir
       Sample.filepath_Clean Sample.matchingDirs Sample.build_ImportDir "bad/..."
     = inl ("unable to build code in " +:+ Sample.fmt_quote "cgo"
              +:+ ": build constraints exclude all Go files").
Proof.
  split; [reflexivity|]. split; [reflexivity|].
  assert (H : Forall (fun b =>
                        Sample.build_ImportDir b = ImportNoGo
                        \/ (Sample.build_ImportDir b = ImportOk
                            /\ exists pkg,
                                 Discovery.parsePkgDir Sample.fmt_quote
                                   Sample.os_Stat_info Sample.parser_ParseDir b
                                 = inr pkg)) ["pkg"]).
  { constructor; [|constructor]. right. split; [reflexivity|]. eexists. reflexivity. }
  exact (parseGoPkg_build_error Sample.fmt_quote Sample.os_Stat_info
           Sample.parser_ParseDir Sample.filepath_Clean Sample.matchingDirs
           Sample.build_ImportDir "bad/..." ["pkg"] ["other"] "cgo" _
           eq_refl H eq_refl).
Defined.

(** [main.go] exists and is a file. *)
Lemma check_refuses_plain_file_witness :
  Sample.os_Stat_files "main.go" = StatOk
  /\ Sample.os_Stat_info "main.go" = inr (mkFileInfo false)
  /\ check Sample.Sizeof Sample.Type_String Sample.fmt_quote Sample.conf_Check
       Sample.os_Stat_files Sample.parseGoPkg
       (Discovery.parsePkgDir Sample.fmt_quote Sample.os_Stat_info
          Sample.parser_ParseDir)
       "main.go" 16 8 8
     = ([], Some (Sample.fmt_quote "main.go" +:+ " is not a directory")).
Proof.
  split; [reflexivity|]. split; [reflexivity|].
  exact (check_refuses_plain_file Sample.fmt_quote Sample.os_Stat_info
           Sample.parser_ParseDir Sample.Sizeof Sample.Type_String
           Sample.conf_Check Sample.os_Stat_files Sample.parseGoPkg
           "main.go" (mkFileInfo false) 16 8 8 eq_refl eq_refl eq_refl).
Defined.
